(** * Quizler: the browser-extension quiz widget and its backend

    A shallow embedding of the logic of the content script
    (getScrollPercent, isQuizPayload, collectPageText and the QuizlerWidget
    handlers openWidget, handleNext, saveQuizResult and the auth-state
    listener) and of the backend (stripHtml, fetchPageText, generateQuiz,
    handleQuiz), with the properties the specification states about them. *)

From Stdlib Require Import ZArith QArith Qround List Bool Lia String Ascii.
From Stdlib Require Import Floats Uint63.
Import ListNotations.

Set Implicit Arguments.
Set Warnings "-register-all,-abstract-large-number".

(** ** JavaScript values *)

Module JS.

(** *** Number

    A JavaScript number is an IEEE-754 double.  A finite double is a rational,
    and it is carried as one; an arithmetic operation computes the exact
    rational result and passes it through a rounding operator [fl], which for
    JavaScript is round-to-nearest-even on 53 bits ([binary64] below).
    Comparisons, Math.floor, Math.round, Math.min and Math.max are exact on
    doubles and need no rounding.  The sign of zero is not kept, and results
    beyond the largest double are not turned into Infinity. *)

Inductive number : Type :=
  | NaN
  | Infinity (negative : bool)
  | Fin (q : Q).

Definition of_Z (z : Z) : number := Fin (inject_Z z).

Definition Number_isFinite (x : number) : bool :=
  match x with Fin _ => true | _ => false end.

Definition Number_isInteger (x : number) : bool :=
  match x with
  | Fin q => Qeq_bool q (inject_Z (Qfloor q))
  | _ => false
  end.

(** x < y; false as soon as one side is NaN. *)
Definition lt (x y : number) : bool :=
  match x, y with
  | NaN, _ | _, NaN => false
  | Infinity true, Infinity true => false
  | Infinity true, _ => true
  | _, Infinity true => false
  | Infinity false, _ => false
  | Fin _, Infinity false => true
  | Fin a, Fin b => negb (Qle_bool b a)
  end.

Definition gt (x y : number) : bool := lt y x.

(** x <= y *)
Definition le (x y : number) : bool :=
  match x, y with
  | NaN, _ | _, NaN => false
  | Infinity true, _ => true
  | _, Infinity false => true
  | Infinity false, _ => false
  | Fin _, Infinity true => false
  | Fin a, Fin b => Qle_bool a b
  end.

(** x === y on numbers *)
Definition strict_eq (x y : number) : bool :=
  match x, y with
  | Fin a, Fin b => Qeq_bool a b
  | Infinity s, Infinity s' => Bool.eqb s s'
  | _, _ => false
  end.

(** Truthiness of a number: 0 and NaN are falsy. *)
Definition truthy (x : number) : bool :=
  match x with
  | NaN => false
  | Infinity _ => true
  | Fin q => negb (Qeq_bool q 0)
  end.

Definition Math_floor (x : number) : number :=
  match x with
  | Fin q => of_Z (Qfloor q)
  | _ => x
  end.

(** Math.round: the nearest integer, a tie going towards +Infinity. *)
Definition Math_round (x : number) : number :=
  match x with
  | Fin q => of_Z (Qfloor (q + (1 # 2)))
  | _ => x
  end.

Definition Math_min (x y : number) : number :=
  match x, y with
  | NaN, _ | _, NaN => NaN
  | _, _ => if le x y then x else y
  end.

Definition Math_max (x y : number) : number :=
  match x, y with
  | NaN, _ | _, NaN => NaN
  | _, _ => if le x y then y else x
  end.

Definition Qsign_neg (q : Q) : bool := negb (Qle_bool 0 q).

Section Arithmetic.

(** The rounding of an exact result to a double. *)
Variable fl : Q -> Q.

(** x / y *)
Definition div (x y : number) : number :=
  match x, y with
  | NaN, _ | _, NaN => NaN
  | Infinity _, Infinity _ => NaN
  | Infinity s, Fin b => Infinity (xorb s (Qsign_neg b))
  | Fin _, Infinity _ => Fin 0
  | Fin a, Fin b =>
      if Qeq_bool b 0 then
        if Qeq_bool a 0 then NaN else Infinity (Qsign_neg a)
      else Fin (fl (a / b))
  end.

(** x * y *)
Definition mul (x y : number) : number :=
  match x, y with
  | NaN, _ | _, NaN => NaN
  | Infinity s, Infinity s' => Infinity (xorb s s')
  | Infinity s, Fin b =>
      if Qeq_bool b 0 then NaN else Infinity (xorb s (Qsign_neg b))
  | Fin a, Infinity s =>
      if Qeq_bool a 0 then NaN else Infinity (xorb (Qsign_neg a) s)
  | Fin a, Fin b => Fin (fl (a * b))
  end.

End Arithmetic.

(** *** Round-to-nearest-even on 53 bits

    [binary64_pos n d] is the double nearest to n/d, for a result in the
    normal range: the exponent k has 2^k <= n/d < 2^(k+1), the quotient is
    scaled to a 53-bit integer mantissa, and the remainder decides the last
    bit, a tie going to the even mantissa. *)

Definition binade (n d : positive) : Z :=
  let e := (Z.log2 (Zpos n) - Z.log2 (Zpos d))%Z in
  let above :=
    if (0 <=? e)%Z then (Zpos d * 2 ^ e <=? Zpos n)%Z
    else (Zpos d <=? Zpos n * 2 ^ (- e))%Z in
  if above then e else (e - 1)%Z.

Definition nearest_even (N D : Z) : Z :=
  let m := (N / D)%Z in
  let r := (N mod D)%Z in
  match (2 * r ?= D)%Z with
  | Lt => m
  | Gt => (m + 1)%Z
  | Eq => if Z.even m then m else (m + 1)%Z
  end.

Definition binary64_pos (n d : positive) : Q :=
  let k := binade n d in
  let shift := (52 - k)%Z in
  let m :=
    if (0 <=? shift)%Z then nearest_even (Zpos n * 2 ^ shift) (Zpos d)
    else nearest_even (Zpos n) (Zpos d * 2 ^ (- shift)) in
  if (0 <=? shift)%Z then Qred (m # Z.to_pos (2 ^ shift))
  else inject_Z (m * 2 ^ (- shift)).

Definition binary64 (q : Q) : Q :=
  match Qnum q with
  | Z0 => 0
  | Zpos n => binary64_pos n (Qden q)
  | Zneg n => - binary64_pos n (Qden q)
  end.

(** The value of one of the kernel's doubles, for comparing [binary64] with
    the hardware arithmetic. *)
Definition Q_of_float (f : float) : option Q :=
  match Prim2SF f with
  | S754_zero _ => Some 0
  | S754_finite s m e =>
      let v := if (0 <=? e)%Z then inject_Z (Zpos m * 2 ^ e)
               else Qred (Zpos m # Z.to_pos (2 ^ (- e))) in
      Some (if s then - v else v)
  | _ => None
  end.

Definition float_of_Z (z : Z) : float := PrimFloat.of_uint63 (Uint63.of_Z z).

(** *** String

    A JavaScript string is a sequence of UTF-16 code units; its length counts
    code units. *)

Definition code_unit : Type := N.
Definition js_string : Type := list code_unit.

(** An ASCII literal of the source text. *)
Definition lit (s : string) : js_string :=
  map N_of_ascii (list_ascii_of_string s).

Definition SPACE : code_unit := 32%N.

Fixpoint str_eqb (s t : js_string) : bool :=
  match s, t with
  | [], [] => true
  | c :: s', d :: t' => N.eqb c d && str_eqb s' t'
  | _, _ => false
  end.

(** The class \s of a regular expression, which is also what
    String.prototype.trim strips: WhiteSpace and LineTerminator. *)
Definition is_whitespace (c : code_unit) : bool :=
  ((9 <=? c) && (c <=? 13) || (c =? 32) || (c =? 160) || (c =? 5760)
   || (8192 <=? c) && (c <=? 8202) || (c =? 8232) || (c =? 8233)
   || (c =? 8239) || (c =? 8287) || (c =? 12288) || (c =? 65279))%N.

(** s.replace(/\s+/g, " "): every maximal run of whitespace becomes one
    space.  [in_run] tells that the previous code unit was whitespace, so the
    run's space has been written already. *)
Fixpoint replace_whitespace_from (in_run : bool) (s : js_string) : js_string :=
  match s with
  | [] => []
  | c :: r =>
      if is_whitespace c then
        if in_run then replace_whitespace_from true r
        else SPACE :: replace_whitespace_from true r
      else c :: replace_whitespace_from false r
  end.

Definition replace_whitespace (s : js_string) : js_string :=
  replace_whitespace_from false s.

Fixpoint trimStart (s : js_string) : js_string :=
  match s with
  | [] => []
  | c :: r => if is_whitespace c then trimStart r else s
  end.

Definition trimEnd (s : js_string) : js_string := rev (trimStart (rev s)).

Definition trim (s : js_string) : js_string := trimEnd (trimStart s).

(** s.slice(0, n) for a non-negative n *)
Definition slice0 (n : nat) (s : js_string) : js_string := firstn n s.

(** *** JSON values, as JSON.parse builds them *)

Inductive json : Type :=
  | JNull
  | JBool (b : bool)
  | JNumber (n : number)
  | JString (s : js_string)
  | JArray (items : list json)
  | JObject (members : list (js_string * json)).

(** v.k for a parsed value v: [None] is undefined.  A later member of an
    object replaces an earlier one of the same name; the values that are not
    objects have none of the properties the program reads. *)
Fixpoint lookup_member (k : js_string) (members : list (js_string * json))
  : option json :=
  match members with
  | [] => None
  | (k', v) :: rest =>
      match lookup_member k rest with
      | Some w => Some w
      | None => if str_eqb k k' then Some v else None
      end
  end.

Definition get (v : json) (k : string) : option json :=
  match v with
  | JObject members => lookup_member (lit k) members
  | _ => None
  end.

(** !v *)
Definition falsy (v : json) : bool :=
  match v with
  | JNull => true
  | JBool b => negb b
  | JNumber n => negb (truthy n)
  | JString s => match s with [] => true | _ => false end
  | _ => false
  end.

Section Conversion.

(** The language's StringToNumber, and the string an array or object
    converts to. *)
Variable StringToNumber : js_string -> number.
Variable ToPrimitive : json -> js_string.

(** Number(v) *)
Definition ToNumber (v : option json) : number :=
  match v with
  | None => NaN
  | Some JNull => of_Z 0
  | Some (JBool b) => if b then of_Z 1 else of_Z 0
  | Some (JNumber n) => n
  | Some (JString s) => StringToNumber s
  | Some w => StringToNumber (ToPrimitive w)
  end.

End Conversion.

End JS.

Import JS.

(** ** The content script's data model (QuizItem, QuizPayload), shared with
    the backend's schema *)

Record QuizItem : Type := {
  question : js_string;
  options : list js_string;
  correctIndex : number
}.

Record QuizPayload : Type := {
  questions : list QuizItem
}.

Definition MAX_TEXT_LENGTH : nat := 9000.

(** ** The backend *)

Module Backend.

(** *** utils/html.ts *)

(** Case folding of a regular expression with the i flag, as far as a pattern
    of ASCII characters can tell: a code unit above 127 never folds to an
    ASCII one. *)
Definition canonicalize (c : code_unit) : code_unit :=
  if ((97 <=? c) && (c <=? 122))%N then (c - 32)%N else c.

Fixpoint starts_with_ci (pat s : js_string) : bool :=
  match pat, s with
  | [], _ => true
  | _ :: _, [] => false
  | p :: pat', c :: s' =>
      N.eqb (canonicalize p) (canonicalize c) && starts_with_ci pat' s'
  end.

(** The least k with [pat] at offset k of [s]. *)
Fixpoint find_ci (pat s : js_string) : option nat :=
  if starts_with_ci pat s then Some O
  else match s with
       | [] => None
       | _ :: r => option_map S (find_ci pat r)
       end.

(** s.replace(/<open[\s\S]*?<close>/gi, " "): at a position where the opening
    text starts, the match runs to the end of the first closing text after it
    and is replaced by one space; where there is no closing text the code unit
    is kept.  [skip] counts the code units of a match still to be dropped. *)
Fixpoint replace_blocks_from (opening closing : js_string) (skip : nat)
  (s : js_string) : js_string :=
  match s with
  | [] => []
  | c :: r =>
      match skip with
      | S k => replace_blocks_from opening closing k r
      | O =>
          if starts_with_ci opening s then
            match find_ci closing (skipn (List.length opening) s) with
            | Some k =>
                SPACE :: replace_blocks_from opening closing
                           (List.length opening + k + List.length closing - 1) r
            | None => c :: replace_blocks_from opening closing O r
            end
          else c :: replace_blocks_from opening closing O r
      end
  end.

Definition replace_blocks (opening closing s : js_string) : js_string :=
  replace_blocks_from opening closing O s.

Definition LT_SIGN : code_unit := 60%N.
Definition GT_SIGN : code_unit := 62%N.

(** The number of leading code units of s other than the closing sign. *)
Fixpoint tag_body_length (s : js_string) : nat :=
  match s with
  | [] => O
  | c :: r => if N.eqb c GT_SIGN then O else S (tag_body_length r)
  end.

(** s.replace(/<[^>]+>/g, " ") *)
Fixpoint replace_tags_from (skip : nat) (s : js_string) : js_string :=
  match s with
  | [] => []
  | c :: r =>
      match skip with
      | S k => replace_tags_from k r
      | O =>
          let n := tag_body_length r in
          if N.eqb c LT_SIGN && (0 <? n)%nat
             && match nth_error r n with Some _ => true | None => false end
          then SPACE :: replace_tags_from (n + 1) r
          else c :: replace_tags_from O r
      end
  end.

Definition replace_tags (s : js_string) : js_string := replace_tags_from O s.

Definition stripHtml (html : js_string) : js_string :=
  let withoutScripts := replace_blocks (lit "<script") (lit "</script>") html in
  let withoutStyles :=
    replace_blocks (lit "<style") (lit "</style>") withoutScripts in
  trim (replace_whitespace (replace_tags withoutStyles)).

(** What fetch(url) and response.text() come to. *)
Inductive fetch_outcome : Type :=
  | FetchThrows
  | FetchResponse (ok : bool) (text : option js_string).

Definition fetchPageText (fetched : fetch_outcome) : js_string :=
  match fetched with
  | FetchResponse true (Some html) => slice0 MAX_TEXT_LENGTH (stripHtml html)
  | _ => []
  end.

(** *** services/quiz.service.ts and routes/quiz.ts *)

(** The holes of the prompt's template. *)
Record Prompt : Type := {
  prompt_count : number;
  prompt_title : json;
  prompt_url : js_string;
  prompt_content : js_string
}.

(** generateObject either returns an object that passed the schema or
    throws (a transport error, or output the schema refuses). *)
Inductive generation : Type :=
  | Generated (object : QuizPayload)
  | GenerationThrows.

Record GenerateQuizParams : Type := {
  url : js_string;
  title : option json;
  text : option json;
  count : option json
}.

Inductive quiz_result : Type :=
  | QuizError (error : js_string)
  | QuizObject (object : QuizPayload) (sourceUrl : js_string).

(** A promise settles with a value or is rejected. *)
Inductive settled (A : Type) : Type :=
  | Resolved (a : A)
  | Rejected.
Arguments Rejected {A}.

Record Response : Type := {
  status : Z;
  body : json
}.

(** jsonResponse(data, { status }); the headers are the fixed CORS ones. *)
Definition jsonResponse (data : json) (init_status : option Z) : Response :=
  {| status := match init_status with Some c => c | None => 200%Z end;
     body := data |}.

Definition json_of_item (item : QuizItem) : json :=
  JObject [ (lit "question", JString (question item));
            (lit "options", JArray (map JString (options item)));
            (lit "correctIndex", JNumber (correctIndex item)) ].

Definition json_of_result (object : QuizPayload) (sourceUrl : js_string)
  : json :=
  JObject [ (lit "questions", JArray (map json_of_item (questions object)));
            (lit "sourceUrl", JString sourceUrl) ].

Definition json_of_error (error : js_string) : json :=
  JObject [ (lit "error", JString error) ].

(** The schema given to generateObject: z.array(z.string()).length(4),
    z.number().int().min(0).max(3), and at least one question. *)
Definition quizItemSchema (item : QuizItem) : bool :=
  (List.length (options item) =? 4)%nat
  && Number_isInteger (correctIndex item)
  && le (of_Z 0) (correctIndex item)
  && le (correctIndex item) (of_Z 3).

Definition quizSchema (object : QuizPayload) : bool :=
  forallb quizItemSchema (questions object)
  && (1 <=? List.length (questions object))%nat.

Definition is_empty (s : js_string) : bool :=
  match s with [] => true | _ => false end.

Section Service.

Variable StringToNumber : js_string -> number.
Variable ToPrimitive : json -> js_string.
(** fetch(url), and the model behind generateObject *)
Variable fetch : js_string -> fetch_outcome.
Variable generateObject : Prompt -> generation.

(** count ?? 5 *)
Definition count_or_default (count : option json) : option json :=
  match count with
  | None | Some JNull => Some (JNumber (of_Z 5))
  | Some v => Some v
  end.

Definition questionCount (count : option json) : number :=
  let requestedCount :=
    ToNumber StringToNumber ToPrimitive (count_or_default count) in
  if Number_isFinite requestedCount && gt requestedCount (of_Z 0)
  then Math_min (Math_floor requestedCount) (of_Z 10)
  else of_Z 5.

Definition pageText (params : GenerateQuizParams) : js_string :=
  match text params with
  | Some (JString t) =>
      if (0 <? List.length (trim t))%nat then slice0 MAX_TEXT_LENGTH t
      else fetchPageText (fetch (url params))
  | _ => fetchPageText (fetch (url params))
  end.

Definition generateQuiz (params : GenerateQuizParams)
  : settled quiz_result :=
  let pageText := pageText params in
  if is_empty pageText then
    Resolved (QuizError (lit "Unable to extract page text"))
  else
    let prompt :=
      {| prompt_count := questionCount (count params);
         prompt_title :=
           match title params with
           | None | Some JNull => JString (lit "Unknown")
           | Some v => v
           end;
         prompt_url := url params;
         prompt_content := pageText |} in
    match generateObject prompt with
    | Generated object => Resolved (QuizObject object (url params))
    | GenerationThrows => Rejected
    end.

(** [parsed] is what req.json() resolves to, [None] when it rejects. *)
Definition handleQuiz (parsed : option json) : settled Response :=
  let payload := match parsed with Some v => v | None => JNull end in
  match falsy payload, get payload "url" with
  | false, Some (JString u) =>
      match generateQuiz {| url := u;
                            title := get payload "title";
                            text := get payload "text";
                            count := get payload "count" |} with
      | Rejected => Rejected
      | Resolved (QuizError e) =>
          Resolved (jsonResponse (json_of_error e) (Some 400%Z))
      | Resolved (QuizObject object sourceUrl) =>
          Resolved (jsonResponse (json_of_result object sourceUrl) None)
      end
  | _, _ =>
      Resolved (jsonResponse (json_of_error (lit "Missing url")) (Some 400%Z))
  end.

End Service.

End Backend.

(** ** The content script *)

Module Content.

Definition TOTAL_QUESTIONS : Z := 5.

Section ScrollPercent.

Variable fl : Q -> Q.

(** The document's geometry: window.scrollY and documentElement.scrollTop
    are finite doubles, scrollHeight and clientHeight are integers, whose
    difference is exact. *)
Definition getScrollPercent (scrollY docScrollTop : Q)
  (scrollHeight clientHeight : Z) : number :=
  let scrollTop :=
    if truthy (Fin scrollY) then Fin scrollY else Fin docScrollTop in
  let scrollRange := of_Z (scrollHeight - clientHeight) in
  if le scrollRange (of_Z 0) then of_Z 100
  else
    let rawPercent := mul fl (div fl scrollTop scrollRange) (of_Z 100) in
    Math_min (of_Z 100) (Math_max (of_Z 0) (Math_round rawPercent)).

End ScrollPercent.

Definition isQuizPayload (value : option QuizPayload) : bool :=
  match value with
  | None => false
  | Some v =>
      (0 <? List.length (questions v))%nat
      && forallb (fun item => (List.length (options item) =? 4)%nat)
           (questions v)
  end.

(** [innerText] is document.body?.innerText, [None] when there is no body. *)
Definition collectPageText (innerText : option js_string) : js_string :=
  let text := match innerText with Some t => t | None => [] end in
  slice0 MAX_TEXT_LENGTH (trim (replace_whitespace text)).

(** *** The widget's state *)

Inductive Status : Type := idle | loading | ready | error.

Inductive AuthStep : Type := email | otp.

Record PendingResult : Type := {
  score : Z;
  total : Z;
  percentage : number
}.

Record Session : Type := {
  user_id : js_string
}.

(** The useState cells of QuizlerWidget the handlers below read or write. *)
Record Widget : Type := {
  isOpen : bool;
  quiz : option QuizPayload;
  status : Status;
  errorMessage : option js_string;
  selectedIndex : option Z;
  showResult : bool;
  questionIndex : Z;
  correctCount : Z;
  isComplete : bool;
  (* Auth state *)
  showAuthModal : bool;
  authOtp : js_string;
  authStep : AuthStep;
  authMessage : option js_string;
  session : option Session;
  (* Leaderboard state *)
  resultSaved : bool;
  (* Pending result *)
  pendingResult : option PendingResult
}.

(** A row of the quiz_results table, as saveQuizResult inserts it. *)
Record Row : Type := {
  row_user_id : js_string;
  row_score : Z;
  row_total_questions : Z;
  row_percentage : number;
  row_page_url : js_string;
  row_page_title : js_string
}.

Record QuizRequest : Type := {
  request_url : js_string;
  request_title : js_string;
  request_text : js_string;
  request_count : Z
}.

(** What the widget acts on: the page, the auth provider's current session,
    the quiz_results table, the console, and the messages sent to the
    background process. *)
Record World : Type := {
  location_href : js_string;
  document_title : js_string;
  body_innerText : option js_string;
  auth_session : option Session;
  quiz_results : list Row;
  console_errors : list (js_string * js_string);
  sent_messages : list QuizRequest
}.

(** The component after a render, with the value of pendingResult that the
    auth listener subscribed by the last run of its effect closes over, and
    the invocations of that listener that are suspended at their
    [await saveQuizResult(...)], each with the result it passed. *)
Record System : Type := {
  widget : Widget;
  world : World;
  listener_pendingResult : option PendingResult;
  flushes : list PendingResult
}.

(** **** Setters *)

Definition with_quiz_cells (w : Widget) (q : option QuizPayload) (st : Status)
  (e : option js_string) (sel : option Z) (shown : bool) : Widget :=
  {| isOpen := isOpen w; quiz := q; status := st; errorMessage := e;
     selectedIndex := sel; showResult := shown;
     questionIndex := questionIndex w; correctCount := correctCount w;
     isComplete := isComplete w;
     showAuthModal := showAuthModal w; authOtp := authOtp w;
     authStep := authStep w; authMessage := authMessage w;
     session := session w; resultSaved := resultSaved w;
     pendingResult := pendingResult w |}.

Definition with_progress (w : Widget) (sel : option Z) (shown : bool)
  (index count : Z) (complete : bool) : Widget :=
  {| isOpen := isOpen w; quiz := quiz w; status := status w;
     errorMessage := errorMessage w;
     selectedIndex := sel; showResult := shown;
     questionIndex := index; correctCount := count;
     isComplete := complete;
     showAuthModal := showAuthModal w; authOtp := authOtp w;
     authStep := authStep w; authMessage := authMessage w;
     session := session w; resultSaved := resultSaved w;
     pendingResult := pendingResult w |}.

Definition with_isOpen (w : Widget) (open : bool) : Widget :=
  {| isOpen := open; quiz := quiz w; status := status w;
     errorMessage := errorMessage w;
     selectedIndex := selectedIndex w; showResult := showResult w;
     questionIndex := questionIndex w; correctCount := correctCount w;
     isComplete := isComplete w;
     showAuthModal := showAuthModal w; authOtp := authOtp w;
     authStep := authStep w; authMessage := authMessage w;
     session := session w; resultSaved := resultSaved w;
     pendingResult := pendingResult w |}.

Definition with_pendingResult (w : Widget) (p : option PendingResult)
  : Widget :=
  {| isOpen := isOpen w; quiz := quiz w; status := status w;
     errorMessage := errorMessage w;
     selectedIndex := selectedIndex w; showResult := showResult w;
     questionIndex := questionIndex w; correctCount := correctCount w;
     isComplete := isComplete w;
     showAuthModal := showAuthModal w; authOtp := authOtp w;
     authStep := authStep w; authMessage := authMessage w;
     session := session w; resultSaved := resultSaved w;
     pendingResult := p |}.

Definition with_resultSaved (w : Widget) (saved : bool) : Widget :=
  {| isOpen := isOpen w; quiz := quiz w; status := status w;
     errorMessage := errorMessage w;
     selectedIndex := selectedIndex w; showResult := showResult w;
     questionIndex := questionIndex w; correctCount := correctCount w;
     isComplete := isComplete w;
     showAuthModal := showAuthModal w; authOtp := authOtp w;
     authStep := authStep w; authMessage := authMessage w;
     session := session w; resultSaved := saved;
     pendingResult := pendingResult w |}.

Definition with_session (w : Widget) (s : option Session) : Widget :=
  {| isOpen := isOpen w; quiz := quiz w; status := status w;
     errorMessage := errorMessage w;
     selectedIndex := selectedIndex w; showResult := showResult w;
     questionIndex := questionIndex w; correctCount := correctCount w;
     isComplete := isComplete w;
     showAuthModal := showAuthModal w; authOtp := authOtp w;
     authStep := authStep w; authMessage := authMessage w;
     session := s; resultSaved := resultSaved w;
     pendingResult := pendingResult w |}.

(** The four cells the auth listener resets on a sign-in. *)
Definition with_auth_form_reset (w : Widget) : Widget :=
  {| isOpen := isOpen w; quiz := quiz w; status := status w;
     errorMessage := errorMessage w;
     selectedIndex := selectedIndex w; showResult := showResult w;
     questionIndex := questionIndex w; correctCount := correctCount w;
     isComplete := isComplete w;
     showAuthModal := false; authOtp := [];
     authStep := email; authMessage := None;
     session := session w; resultSaved := resultSaved w;
     pendingResult := pendingResult w |}.

Definition with_widget (s : System) (w : Widget) : System :=
  {| widget := w; world := world s;
     listener_pendingResult := listener_pendingResult s;
     flushes := flushes s |}.

Definition with_world (s : System) (x : World) : System :=
  {| widget := widget s; world := x;
     listener_pendingResult := listener_pendingResult s;
     flushes := flushes s |}.

Definition with_flushes (s : System) (l : list PendingResult) : System :=
  {| widget := widget s; world := world s;
     listener_pendingResult := listener_pendingResult s;
     flushes := l |}.

(** **** Values derived at each render *)

Definition showLoading (w : Widget) : bool :=
  isOpen w
  && (match status w with
      | loading => true
      | idle => match quiz w with None => true | Some _ => false end
      | _ => false
      end).

Definition quizData (w : Widget) : option QuizPayload :=
  if isQuizPayload (quiz w) then quiz w else None.

Definition totalQuestions (w : Widget) : Z :=
  match quizData w with
  | Some q => Z.of_nat (List.length (questions q))
  | None => TOTAL_QUESTIONS
  end.

Definition currentQuestion (w : Widget) : option QuizItem :=
  match quizData w with
  | Some q =>
      if (questionIndex w <? 0)%Z then None
      else nth_error (questions q) (Z.to_nat (questionIndex w))
  | None => None
  end.

Definition hasResult (w : Widget) : bool :=
  showResult w
  && match currentQuestion w, selectedIndex w with
     | Some item, Some _ => Number_isInteger (correctIndex item)
     | _, _ => false
     end.

Definition isLastQuestion (w : Widget) : bool :=
  (totalQuestions w - 1 <=? questionIndex w)%Z.

Definition canAdvance (w : Widget) : bool :=
  match selectedIndex w with Some _ => true | None => false end.

(** The question card is on screen. *)
Definition question_shown (w : Widget) : bool :=
  isOpen w && negb (showLoading w)
  && match currentQuestion w with Some _ => true | None => false end
  && negb (isComplete w).

(** **** saveQuizResult

    [insert_error] is what the insert into quiz_results answers: [None] for
    success. *)
Definition saveQuizResult (insert_error : option js_string)
  (score total : Z) (percentage : number) (s : System) : System * bool :=
  match auth_session (world s) with
  | None =>
      (with_widget s
         (with_pendingResult (widget s)
            (Some {| score := score; total := total;
                     percentage := percentage |})),
       false)
  | Some session =>
      let x := world s in
      match insert_error with
      | Some e =>
          (with_world s
             {| location_href := location_href x;
                document_title := document_title x;
                body_innerText := body_innerText x;
                auth_session := auth_session x;
                quiz_results := quiz_results x;
                console_errors :=
                  console_errors x ++ [(lit "Error saving quiz result:", e)];
                sent_messages := sent_messages x |},
           false)
      | None =>
          ({| widget := with_resultSaved (widget s) true;
              world :=
                {| location_href := location_href x;
                   document_title := document_title x;
                   body_innerText := body_innerText x;
                   auth_session := auth_session x;
                   quiz_results :=
                     quiz_results x
                     ++ [ {| row_user_id := user_id session;
                             row_score := score;
                             row_total_questions := total;
                             row_percentage := percentage;
                             row_page_url := location_href x;
                             row_page_title := document_title x |} ];
                   console_errors := console_errors x;
                   sent_messages := sent_messages x |};
              listener_pendingResult := listener_pendingResult s;
              flushes := flushes s |},
           true)
      end
  end.

(** **** requestQuiz: up to the message it sends, and once the reply is in *)

Definition requestQuiz (s : System) : System :=
  let x := world s in
  {| widget := with_quiz_cells (widget s) None loading None None false;
     world :=
       {| location_href := location_href x;
          document_title := document_title x;
          body_innerText := body_innerText x;
          auth_session := auth_session x;
          quiz_results := quiz_results x;
          console_errors := console_errors x;
          sent_messages :=
            sent_messages x
            ++ [ {| request_url := location_href x;
                    request_title := document_title x;
                    request_text := collectPageText (body_innerText x);
                    request_count := TOTAL_QUESTIONS |} ] |};
     listener_pendingResult := listener_pendingResult s;
     flushes := flushes s |}.

Inductive message_result : Type :=
  | LastError (message : js_string)
  | ReplyNotOk (error : option js_string)
  | ReplyOk (data : option QuizPayload).

Definition requestQuiz_settled (r : message_result) (s : System) : System :=
  let w := widget s in
  match r with
  | LastError m =>
      with_widget s
        (with_quiz_cells w (quiz w) error (Some m)
           (selectedIndex w) (showResult w))
  | ReplyNotOk e =>
      with_widget s
        (with_quiz_cells w (quiz w) error
           (Some (match e with Some m => m | None => lit "Request failed" end))
           (selectedIndex w) (showResult w))
  | ReplyOk data =>
      with_widget s
        (with_quiz_cells w data ready (errorMessage w)
           (selectedIndex w) (showResult w))
  end.

(** **** openWidget *)

Definition openWidget (s : System) : System :=
  let w := widget s in
  let s' :=
    with_widget s (with_isOpen (with_progress w None false 0 0 false) true) in
  match status w with
  | idle | error => requestQuiz s'
  | _ => s'
  end.

(** **** handleNext *)

Definition percentage_of (finalCorrect totalQuestions : Z) : number :=
  Math_round
    (mul binary64 (div binary64 (of_Z finalCorrect) (of_Z totalQuestions))
       (of_Z 100)).

Definition handleNext (insert_error : option js_string) (s : System)
  : System :=
  let w := widget s in
  match currentQuestion w, selectedIndex w with
  | Some item, Some selected =>
      let answer_correct := strict_eq (of_Z selected) (correctIndex item) in
      if negb (showResult w) then
        with_widget s
          (with_progress w (selectedIndex w) true (questionIndex w)
             (if answer_correct then correctCount w + 1 else correctCount w)
             (isComplete w))
      else if negb (isLastQuestion w) then
        with_widget s
          (with_progress w None false (questionIndex w + 1) (correctCount w)
             (isComplete w))
      else
        let finalCorrect :=
          if answer_correct then (correctCount w + 1)%Z else correctCount w in
        let percentage := percentage_of finalCorrect (totalQuestions w) in
        fst (saveQuizResult insert_error finalCorrect (totalQuestions w)
               percentage
               (with_widget s
                  (with_progress w (selectedIndex w) (showResult w)
                     (questionIndex w) (correctCount w) true)))
  | _, _ => s
  end.

(** **** The auth listener

    The async callback given to onAuthStateChange by the effect whose
    dependency is pendingResult; [captured] is the pendingResult of the
    render that subscribed it.  An invocation runs up to its
    [await saveQuizResult(...)] and is suspended there: [authListener] is
    that first part.  The same listener stays subscribed meanwhile, since
    pendingResult has not changed yet, and nothing keeps it from being
    invoked again. *)
Definition authListener (captured : option PendingResult)
  (session : option Session) (s : System) : System :=
  let s1 := with_widget s (with_session (widget s) session) in
  match session with
  | None => s1
  | Some _ =>
      let s2 := with_widget s1 (with_auth_form_reset (widget s1)) in
      match captured with
      | None => s2
      | Some p => with_flushes s2 (flushes s2 ++ [p])
      end
  end.

(** The rest of an invocation, once the saveQuizResult call it awaits has
    settled: what that call did, then setPendingResult(null). *)
Definition authListener_resumed (insert_error : option js_string)
  (p : PendingResult) (s : System) : System :=
  let s3 :=
    fst (saveQuizResult insert_error (score p) (total p) (percentage p) s) in
  with_widget s3 (with_pendingResult (widget s3) None).

(** l without its element of index k *)
Definition drop_nth (k : nat) (l : list PendingResult) : list PendingResult :=
  firstn k l ++ skipn (S k) l.

(** The flush of index k among those in flight settles, its insert
    answering [insert_error], and its invocation of the listener goes on. *)
Definition flushSettled (k : nat) (insert_error : option js_string)
  (s : System) : System :=
  match nth_error (flushes s) k with
  | Some p =>
      authListener_resumed insert_error p
        (with_flushes s (drop_nth k (flushes s)))
  | None => s
  end.

(** The provider changes its session and notifies the subscribed listener. *)
Definition onAuthStateChange (session : option Session) (s : System)
  : System :=
  let x := world s in
  authListener (listener_pendingResult s) session
    (with_world s
       {| location_href := location_href x;
          document_title := document_title x;
          body_innerText := body_innerText x;
          auth_session := session;
          quiz_results := quiz_results x;
          console_errors := console_errors x;
          sent_messages := sent_messages x |}).

(** **** Events and the render that follows each of them *)

Inductive event : Type :=
  | ClickFab
  | ClickClose
  | ClickOption (index : Z)
  | ClickPrimary (insert_error : option js_string)
  | ClickTryAgain
  | MessageReply (r : message_result)
  | AuthStateChange (session : option Session)
  | FlushSettled (k : nat) (insert_error : option js_string).

Definition handle (e : event) (s : System) : System :=
  let w := widget s in
  match e with
  | ClickFab => openWidget s
  | ClickClose => with_widget s (with_isOpen w false)
  | ClickOption i =>
      if question_shown w && negb (hasResult w) then
        with_widget s
          (with_progress w (Some i) (showResult w) (questionIndex w)
             (correctCount w) (isComplete w))
      else s
  | ClickPrimary insert_error =>
      if question_shown w && canAdvance w then handleNext insert_error s
      else s
  | ClickTryAgain =>
      match isOpen w, status w with
      | true, error => requestQuiz s
      | _, _ => s
      end
  | MessageReply r => requestQuiz_settled r s
  | AuthStateChange session => onAuthStateChange session s
  | FlushSettled k insert_error => flushSettled k insert_error s
  end.

(** structural equality, for telling whether a dependency changed *)
Definition number_eqb (x y : number) : bool :=
  match x, y with
  | NaN, NaN => true
  | Infinity a, Infinity b => Bool.eqb a b
  | Fin a, Fin b => Z.eqb (Qnum a) (Qnum b) && Pos.eqb (Qden a) (Qden b)
  | _, _ => false
  end.

Definition pending_eqb (p q : option PendingResult) : bool :=
  match p, q with
  | None, None => true
  | Some a, Some b =>
      Z.eqb (score a) (score b) && Z.eqb (total a) (total b)
      && number_eqb (percentage a) (percentage b)
  | _, _ => false
  end.

(** The effect on pendingResult, after a render: it runs again when
    pendingResult has changed, reads the provider's session into the session
    cell and subscribes a listener that closes over the new pendingResult.
    (The effect on status requests a quiz while the status is idle, which it
    is at the first render only: see [mount].) *)
Definition run_effects (s : System) : System :=
  if pending_eqb (listener_pendingResult s) (pendingResult (widget s))
  then s
  else
    {| widget := with_session (widget s) (auth_session (world s));
       world := world s;
       listener_pendingResult := pendingResult (widget s);
       flushes := flushes s |}.

(** The first render and its effects. *)
Definition mount (x : World) : System :=
  requestQuiz
    {| widget :=
         {| isOpen := false; quiz := None; status := idle;
            errorMessage := None; selectedIndex := None; showResult := false;
            questionIndex := 0; correctCount := 0; isComplete := false;
            showAuthModal := false; authOtp := []; authStep := email;
            authMessage := None; session := auth_session x;
            resultSaved := false; pendingResult := None |};
       world := x;
       listener_pendingResult := None;
       flushes := [] |}.

Definition dispatch (s : System) (e : event) : System :=
  run_effects (handle e s).

Definition run (s : System) (events : list event) : System :=
  fold_left dispatch events s.

End Content.

(** ** The vocabulary of the specification *)

Module Spec.

(** round(100 x correct / total) on the exact quotient: the nearest integer,
    a tie going up as Math.round does. *)
Definition rounded_percentage (correct total : Z) : number :=
  of_Z (Qfloor (inject_Z 100 * inject_Z correct / inject_Z total + (1 # 2))).

(** The same product on the kernel's binary64 floats. *)
Definition float_percentage_value (correct total : Z) : option Q :=
  Q_of_float
    (PrimFloat.mul (PrimFloat.div (float_of_Z correct) (float_of_Z total))
       (float_of_Z 100)).

(** correctIndex is one of 0, 1, 2, 3. *)
Definition valid_index (n : number) : Prop :=
  exists z : Z, (0 <= z <= 3)%Z /\ strict_eq n (of_Z z) = true.

Definition starts_with_whitespace (s : js_string) : bool :=
  match s with
  | c :: _ => is_whitespace c
  | [] => false
  end.

Definition ends_with_whitespace (s : js_string) : bool :=
  starts_with_whitespace (rev s).

(** No two consecutive code units of s are both whitespace. *)
Definition no_adjacent_whitespace (s : js_string) : Prop :=
  forall (before after : js_string) (c d : code_unit),
    s = before ++ c :: d :: after ->
    is_whitespace c = true -> is_whitespace d = true -> False.


(** A notification of the auth provider, a sign-in or a sign-out, or the
    end of a flush such a notification started. *)
Definition auth_event (e : Content.event) : Prop :=
  match e with
  | Content.AuthStateChange _ | Content.FlushSettled _ _ => True
  | _ => False
  end.

End Spec.

Import Content.

(** ** What the properties observe, and the examples they are tried on *)

(** The row saveQuizResult inserts for a session. *)
Definition row_of (s : System) (session : Session) (score total : Z)
  (percentage : number) : Row :=
  {| row_user_id := user_id session;
     row_score := score;
     row_total_questions := total;
     row_percentage := percentage;
     row_page_url := location_href (world s);
     row_page_title := document_title (world s) |}.

(** The message requestQuiz sends. *)
Definition request_of (s : System) : QuizRequest :=
  {| request_url := location_href (world s);
     request_title := document_title (world s);
     request_text := collectPageText (body_innerText (world s));
     request_count := TOTAL_QUESTIONS |}.


Definition no_page_text : Backend.Response :=
  Backend.jsonResponse
    (Backend.json_of_error (lit "Unable to extract page text"))
    (Some 400%Z).

(** The percentage of handleNext against the exact rounding, for one total
    and every count up to one above it. *)
Definition percentage_agrees (total correct : Z) : bool :=
  number_eqb (percentage_of correct total)
    (Spec.rounded_percentage correct total).

Definition percentage_agrees_upto (total : Z) : bool :=
  (total =? 0)%Z
  || forallb (percentage_agrees total)
       (map Z.of_nat (seq 0 (Z.to_nat total + 2))).

(** The product (c / t) * 100 as [binary64] rounds it against the one the
    kernel's floats compute. *)
Definition raw_percentage_matches_float (total correct : Z) : bool :=
  match mul binary64 (div binary64 (of_Z correct) (of_Z total)) (of_Z 100),
        Spec.float_percentage_value correct total with
  | Fin q, Some q' => Qeq_bool q q'
  | _, _ => false
  end.

Definition four_options : list js_string :=
  [lit "a"; lit "b"; lit "c"; lit "d"].

(** A payload of one question with a given correctIndex. *)
Definition payload_with_index (n : number) : QuizPayload :=
  {| questions :=
       [ {| question := lit "q"; options := four_options;
            correctIndex := n |} ] |}.

Definition five_questions : QuizPayload :=
  {| questions :=
       repeat {| question := lit "q"; options := four_options;
                 correctIndex := of_Z 0 |} 5 |}.

(** A page text of 8999 letters, a space and one more letter. *)
Definition long_page_text : js_string :=
  repeat 97%N 8999 ++ [SPACE; 98%N].

(** A well-formed request that carries its text. *)
Definition request_with_text : json :=
  JObject [ (lit "url", JString (lit "https://example.org/doc"));
            (lit "text", JString (lit "Some page text")) ].

Definition example_page : World :=
  {| location_href := lit "https://example.org/doc";
     document_title := lit "Doc";
     body_innerText := Some (lit "  Hello   world ");
     auth_session := None;
     quiz_results := [];
     console_errors := [];
     sent_messages := [] |}.

Definition example_session : Session := {| user_id := lit "user-1" |}.

(** A visitor who is not signed in answers the one question of a quiz
    correctly and finishes. *)
Definition finished_unauthenticated : System :=
  run (mount example_page)
    [ MessageReply (ReplyOk (Some (payload_with_index (of_Z 0))));
      ClickFab; ClickOption 0; ClickPrimary None; ClickPrimary None ].

(** A visitor who is not signed in answers the one question of a quiz
    wrongly and finishes: the result that waits is 0 of 1. *)
Definition finished_with_wrong_answer : System :=
  run (mount example_page)
    [ MessageReply (ReplyOk (Some (payload_with_index (of_Z 0))));
      ClickFab; ClickOption 1; ClickPrimary None; ClickPrimary None ].

(** Two sign-in notifications, the second delivered while the flush the
    first one started is still awaited; then both flushes settle, their
    inserts accepted. *)
Definition overlapping_sign_ins : list event :=
  [ AuthStateChange (Some example_session);
    AuthStateChange (Some example_session);
    FlushSettled 0 None; FlushSettled 0 None ].

(** The same two notifications, the second after the first flush settled. *)
Definition successive_sign_ins : list event :=
  [ AuthStateChange (Some example_session); FlushSettled 0 None;
    AuthStateChange (Some example_session); FlushSettled 0 None ].

(** ** The rest of the widget's view logic *)

Module View.

(** The floating button pulses from 95 percent of the page on. *)
Definition isReady (scrollPercent : number) : bool :=
  le (of_Z 95) scrollPercent.

(** The caption of the primary button. *)
Definition primaryCtaLabel (w : Widget) : js_string :=
  if negb (showResult w) then lit "Submit Answer"
  else if isLastQuestion w then lit "Finish Quiz"
  else lit "Next Question".

(** A code unit other than \D, that is one of 0..9. *)
Definition is_digit (c : code_unit) : bool := ((48 <=? c) && (c <=? 57))%N.

(** The onChange of the code input:
    e.target.value.replace(/\D/g, "").slice(0, 8) *)
Definition otp_onChange (value : js_string) : js_string :=
  slice0 8 (filter is_digit value).

(** disabled={authLoading || authOtp.length < 6} of the Verify button *)
Definition verify_disabled (authLoading : bool) (authOtp : js_string) : bool :=
  authLoading || (List.length authOtp <? 6)%nat.

Definition AT_SIGN : code_unit := 64%N.

(** s.split("@")[0] *)
Fixpoint before_at (s : js_string) : js_string :=
  match s with
  | [] => []
  | c :: r => if N.eqb c AT_SIGN then [] else c :: before_at r
  end.

(** a || b on strings that may be null or undefined: the first one that is
    a non-empty string, else the last operand. *)
Definition or_else (a : option js_string) (b : js_string) : js_string :=
  match a with
  | Some (c :: r) => c :: r
  | _ => b
  end.

(** The name of a leaderboard entry:
    entry.username || entry.email?.split("@")[0] || "Anonymous" *)
Definition entry_name (username email : option js_string) : js_string :=
  or_else username
    (or_else (option_map before_at email) (lit "Anonymous")).

(** The name the popup and the options page show:
    full_name || email?.split("@")[0] || "User" *)
Definition user_name (full_name email : option js_string) : js_string :=
  or_else full_name (or_else (option_map before_at email) (lit "User")).

End View.

(** ** The background process (pages/background/index.ts) *)

Module Background.

(** What a catch clause receives. *)
Inductive thrown : Type :=
  | ErrorObject (message : js_string)
  | OtherValue.

(** What the POST to the backend comes to: fetch rejects, or there is a
    response with a status whose body parses as JSON or does not. *)
Inductive exchange : Type :=
  | FetchRejects (e : thrown)
  | Answer (status : Z) (parsed : json + thrown).

(** response.ok *)
Definition ok (status : Z) : bool := ((200 <=? status) && (status <=? 299))%Z.

Fixpoint digits (u : Decimal.uint) : js_string :=
  match u with
  | Decimal.Nil => []
  | Decimal.D0 r => 48%N :: digits r
  | Decimal.D1 r => 49%N :: digits r
  | Decimal.D2 r => 50%N :: digits r
  | Decimal.D3 r => 51%N :: digits r
  | Decimal.D4 r => 52%N :: digits r
  | Decimal.D5 r => 53%N :: digits r
  | Decimal.D6 r => 54%N :: digits r
  | Decimal.D7 r => 55%N :: digits r
  | Decimal.D8 r => 56%N :: digits r
  | Decimal.D9 r => 57%N :: digits r
  end.

(** The text of a status code in a template literal. *)
Definition status_text (status : Z) : js_string :=
  digits (N.to_uint (Z.to_N status)).

(** The argument of sendResponse. *)
Inductive reply : Type :=
  | Failure (error : js_string)
  | Success (data : json).

Definition caught (e : thrown) : reply :=
  match e with
  | ErrorObject message => Failure message
  | OtherValue => Failure (lit "Unknown error")
  end.

(** The body of run, from the fetch to sendResponse. *)
Definition run (x : exchange) : reply :=
  match x with
  | FetchRejects e => caught e
  | Answer status parsed =>
      if negb (ok status) then
        caught (ErrorObject (lit "Request failed: " ++ status_text status))
      else
        match parsed with
        | inl data => Success data
        | inr e => caught e
        end
  end.

(** The listener: [None] when it returns false and leaves the message to
    others, else the reply it sends. *)
Definition onMessage (message : option json) (x : exchange) : option reply :=
  match message with
  | Some m =>
      match get m "type" with
      | Some (JString t) =>
          if str_eqb t (lit "quizler:generate") then Some (run x) else None
      | _ => None
      end
  | None => None
  end.

(** How the callback of sendMessage in requestQuiz reads a failure. *)
Definition failure_result (error : js_string) : message_result :=
  ReplyNotOk (Some error).

End Background.

(** ** The server (backend/index.ts, in one file, and routes/index.ts) *)

Module Server.

Inductive content : Type :=
  | NoContent
  | Text (s : js_string)
  | Json (j : json).

Record HttpResponse : Type := {
  code : Z;
  payload : content;
  headers : list (js_string * js_string)
}.

Definition corsHeaders : list (js_string * js_string) :=
  [ (lit "Access-Control-Allow-Origin", lit "*");
    (lit "Access-Control-Allow-Methods", lit "POST, OPTIONS");
    (lit "Access-Control-Allow-Headers", lit "Content-Type") ].

(** jsonResponse with its headers *)
Definition jsonResponse (data : json) (init_status : option Z)
  : HttpResponse :=
  {| code := match init_status with Some c => c | None => 200%Z end;
     payload := Json data;
     headers := (lit "Content-Type", lit "application/json") :: corsHeaders |}.

(** The response lib/http.ts builds for what routes/quiz.ts returns. *)
Definition sent (r : Backend.Response) : HttpResponse :=
  jsonResponse (Backend.body r) (Some (Backend.status r)).

Definition preflight : HttpResponse :=
  {| code := 200; payload := NoContent; headers := corsHeaders |}.

Definition not_found : HttpResponse :=
  {| code := 404; payload := Text (lit "Not found"); headers := [] |}.

Definition health : HttpResponse :=
  jsonResponse (JObject [ (lit "ok", JBool true) ]) None.

Definition hello : HttpResponse :=
  jsonResponse (JObject [ (lit "message", JString (lit "Hello, world!")) ])
    None.

Record Request : Type := {
  method : js_string;
  pathname : js_string;
  parsed : option json
}.

Section Serve.

Variable StringToNumber : js_string -> number.
Variable ToPrimitive : json -> js_string.
Variable fetch : js_string -> Backend.fetch_outcome.
Variable generateObject : Backend.Prompt -> Backend.generation.

(** The fetch handler of backend/index.ts when it was one file. *)
Definition serve (req : Request) : Backend.settled HttpResponse :=
  if str_eqb (method req) (lit "OPTIONS") then Backend.Resolved preflight
  else if str_eqb (pathname req) (lit "/api/quiz")
          && str_eqb (method req) (lit "POST") then
    let payload := match parsed req with Some v => v | None => JNull end in
    match falsy payload, get payload "url" with
    | false, Some (JString u) =>
        let text :=
          match get payload "text" with
          | Some (JString t) =>
              if (0 <? List.length (trim t))%nat
              then slice0 MAX_TEXT_LENGTH t
              else Backend.fetchPageText (fetch u)
          | _ => Backend.fetchPageText (fetch u)
          end in
        if Backend.is_empty text then
          Backend.Resolved
            (jsonResponse
               (Backend.json_of_error (lit "Unable to extract page text"))
               (Some 400%Z))
        else
          let requestedCount :=
            ToNumber StringToNumber ToPrimitive
              (match get payload "count" with
               | None | Some JNull => Some (JNumber (of_Z 5))
               | Some v => Some v
               end) in
          let questionCount :=
            if Number_isFinite requestedCount && gt requestedCount (of_Z 0)
            then Math_min (Math_floor requestedCount) (of_Z 10)
            else of_Z 5 in
          let prompt :=
            {| Backend.prompt_count := questionCount;
               Backend.prompt_title :=
                 match get payload "title" with
                 | None | Some JNull => JString (lit "Unknown")
                 | Some v => v
                 end;
               Backend.prompt_url := u;
               Backend.prompt_content := text |} in
          match generateObject prompt with
          | Backend.Generated object =>
              Backend.Resolved
                (jsonResponse (Backend.json_of_result object u) None)
          | Backend.GenerationThrows => Backend.Rejected
          end
    | _, _ =>
        Backend.Resolved
          (jsonResponse (Backend.json_of_error (lit "Missing url"))
             (Some 400%Z))
    end
  else if str_eqb (pathname req) (lit "/health") then Backend.Resolved health
  else Backend.Resolved not_found.

(** What routes/health.ts answers. *)
Variable handleHealth : Backend.settled HttpResponse.

Definition sent_settled (r : Backend.settled Backend.Response)
  : Backend.settled HttpResponse :=
  match r with
  | Backend.Resolved x => Backend.Resolved (sent x)
  | Backend.Rejected => Backend.Rejected
  end.

(** The router of routes/index.ts. *)
Definition router (req : Request) : Backend.settled HttpResponse :=
  if str_eqb (method req) (lit "OPTIONS") then Backend.Resolved preflight
  else if str_eqb (pathname req) (lit "/") then Backend.Resolved hello
  else if str_eqb (pathname req) (lit "/api/quiz")
          && str_eqb (method req) (lit "POST") then
    sent_settled
      (Backend.handleQuiz StringToNumber ToPrimitive fetch generateObject
         (parsed req))
  else if str_eqb (pathname req) (lit "/health") then handleHealth
  else Backend.Resolved not_found.

End Serve.

End Server.

(** ** Shapes of text *)

Module Shape.

(** No match of /<[^>]+>/ in s: an opening sign is followed at once by a
    closing sign, or by none at all. *)
Fixpoint tag_free (s : js_string) : Prop :=
  match s with
  | [] => True
  | c :: t =>
      (c = Backend.LT_SIGN ->
       head t = Some Backend.GT_SIGN \/ ~ In Backend.GT_SIGN t)
      /\ tag_free t
  end.

(** Every whitespace code unit of s is the plain space. *)
Definition spaces_only (s : js_string) : Prop :=
  forall c : code_unit, In c s -> is_whitespace c = true -> c = SPACE.

(** Text in normal form: single plain spaces between the words, none at
    either end. *)
Definition normal (s : js_string) : Prop :=
  spaces_only s /\ Spec.no_adjacent_whitespace s
  /\ Spec.starts_with_whitespace s = false
  /\ Spec.ends_with_whitespace s = false.

End Shape.

(** ** Runs of the widget *)

Module Trace.

(** The subscribed auth listener closes over the current pendingResult, as
    it does after every render. *)
Definition rendered (s : System) : Prop :=
  listener_pendingResult s = pendingResult (widget s).


(** Any event but the reply to a quiz request. *)
Definition not_reply (e : event) : Prop :=
  match e with
  | MessageReply _ => False
  | _ => True
  end.



(** What the widget sends for the page x. *)
Definition request_for (x : World) (r : QuizRequest) : Prop :=
  request_url r = location_href x
  /\ request_title r = document_title x
  /\ request_text r = collectPageText (body_innerText x)
  /\ request_count r = 5%Z.

(** Answering one question: choose an option, submit, go on. *)
Definition answer_events (insert_error : option js_string) (answer : Z)
  : list event :=
  [ClickOption answer; ClickPrimary insert_error; ClickPrimary insert_error].

Definition session_events (insert_error : option js_string)
  (answers : list Z) : list event :=
  flat_map (answer_events insert_error) answers.

Definition is_correct (item : QuizItem) (answer : Z) : bool :=
  strict_eq (of_Z answer) (correctIndex item).

(** The number of questions answered correctly. *)
Fixpoint correct_answers (items : list QuizItem) (answers : list Z) : Z :=
  match items, answers with
  | item :: items', answer :: answers' =>
      ((if is_correct item answer then 1 else 0)
       + correct_answers items' answers')%Z
  | _, _ => 0%Z
  end.

(** 1 when the last question is answered correctly, else 0. *)
Fixpoint last_correct (items : list QuizItem) (answers : list Z) : Z :=
  match items, answers with
  | [item], [answer] => if is_correct item answer then 1%Z else 0%Z
  | _ :: items', _ :: answers' => last_correct items' answers'
  | _, _ => 0%Z
  end.

(** The page of two worlds is the same. *)
Definition same_page (x y : World) : Prop :=
  location_href x = location_href y
  /\ document_title x = document_title y
  /\ body_innerText x = body_innerText y.

(** The widget is open on a valid payload that has arrived, nothing
    pending to render. *)
Definition playing (q : QuizPayload) (s : System) : Prop :=
  quiz (widget s) = Some q
  /\ isQuizPayload (Some q) = true
  /\ isOpen (widget s) = true
  /\ status (widget s) = ready
  /\ rendered s.

(** The system s with other progress cells. *)
Definition at_progress (s : System) (selected : option Z) (shown : bool)
  (index count : Z) (complete : bool) : System :=
  with_widget s
    (with_progress (widget s) selected shown index count complete).

End Trace.

(** * Properties *)

(** ** Numbers *)

Lemma Qle_bool_inject_Z (a b : Z) :
  Qle_bool (inject_Z a) (inject_Z b) = (a <=? b)%Z.
Proof.
  destruct (Z.leb_spec a b) as [H | H].
  - apply Qle_bool_iff. rewrite <- Zle_Qle. exact H.
  - destruct (Qle_bool (inject_Z a) (inject_Z b)) eqn:E; [ | reflexivity ].
    apply Qle_bool_iff in E. rewrite <- Zle_Qle in E. lia.
Qed.

Lemma Qeq_bool_inject_Z (a b : Z) :
  Qeq_bool (inject_Z a) (inject_Z b) = (a =? b)%Z.
Proof.
  destruct (Z.eqb_spec a b) as [-> | H].
  - apply Qeq_bool_iff. reflexivity.
  - destruct (Qeq_bool (inject_Z a) (inject_Z b)) eqn:E; [ | reflexivity ].
    apply Qeq_bool_iff in E. exfalso. apply H.
    apply inject_Z_injective. exact E.
Qed.

Lemma le_of_Z (a b : Z) : le (of_Z a) (of_Z b) = (a <=? b)%Z.
Proof. apply Qle_bool_inject_Z. Qed.

Lemma number_eqb_eq (x y : number) : number_eqb x y = true -> x = y.
Proof.
  destruct x as [ | a | [n d]], y as [ | b | [n' d']]; simpl;
    try discriminate; try reflexivity.
  - intros H. apply Bool.eqb_prop in H. now subst.
  - intros H. apply andb_true_iff in H. destruct H as [Hn Hd].
    apply Z.eqb_eq in Hn. apply Pos.eqb_eq in Hd. now subst.
Qed.

Lemma pending_eqb_eq (p q : option PendingResult) :
  pending_eqb p q = true -> p = q.
Proof.
  destruct p as [[a b c] | ], q as [[a' b' c'] | ]; simpl;
    try discriminate; try reflexivity.
  intros H. apply andb_true_iff in H. destruct H as [H Hc].
  apply andb_true_iff in H. destruct H as [Ha Hb].
  apply Z.eqb_eq in Ha. apply Z.eqb_eq in Hb. apply number_eqb_eq in Hc.
  now subst.
Qed.

(** A check over the integers below a bound carries over to each of them. *)
Lemma forallb_below (P : Z -> bool) (n : nat) :
  forallb P (map Z.of_nat (seq 0 n)) = true ->
  forall z, (0 <= z < Z.of_nat n)%Z -> P z = true.
Proof.
  intros H z Hz. rewrite forallb_forall in H. apply H.
  apply in_map_iff. exists (Z.to_nat z). split; [ lia | ].
  apply in_seq. lia.
Qed.

Lemma Math_max_of_Z (a b : Z) :
  Math_max (of_Z a) (of_Z b) = of_Z (Z.max a b).
Proof.
  unfold Math_max. change (le (Fin (inject_Z a)) (Fin (inject_Z b)))
    with (le (of_Z a) (of_Z b)).
  unfold of_Z at 1 2. rewrite le_of_Z.
  destruct (Z.leb_spec a b);
    [ rewrite Z.max_r by lia | rewrite Z.max_l by lia ]; reflexivity.
Qed.

Lemma Math_min_of_Z (a b : Z) :
  Math_min (of_Z a) (of_Z b) = of_Z (Z.min a b).
Proof.
  unfold Math_min. change (le (Fin (inject_Z a)) (Fin (inject_Z b)))
    with (le (of_Z a) (of_Z b)).
  unfold of_Z at 1 2. rewrite le_of_Z.
  destruct (Z.leb_spec a b);
    [ rewrite Z.min_l by lia | rewrite Z.min_r by lia ]; reflexivity.
Qed.

Lemma div_by_nonzero (fl : Q -> Q) (a : Q) (r : Z) :
  r <> 0%Z -> div fl (Fin a) (of_Z r) = Fin (fl (a / inject_Z r)).
Proof.
  intros Hr. unfold div, of_Z.
  change (Qeq_bool (inject_Z r) 0) with (Qeq_bool (inject_Z r) (inject_Z 0)).
  rewrite Qeq_bool_inject_Z.
  destruct (Z.eqb_spec r 0); [ contradiction | reflexivity ].
Qed.

(** ** getScrollPercent *)

(** C10.  Whatever the document's geometry, and whatever the rounding of the
    division and the multiplication, getScrollPercent returns an integer
    between 0 and 100, and it returns 100 when the document does not scroll
    (scrollHeight - clientHeight <= 0). *)
Theorem getScrollPercent_integer_in_0_100 :
  forall (fl : Q -> Q) (scrollY docScrollTop : Q)
         (scrollHeight clientHeight : Z),
    (exists z : Z,
        getScrollPercent fl scrollY docScrollTop scrollHeight clientHeight
        = of_Z z /\ (0 <= z <= 100)%Z)
    /\ ((scrollHeight - clientHeight <= 0)%Z ->
        getScrollPercent fl scrollY docScrollTop scrollHeight clientHeight
        = of_Z 100).
Proof.
  intros fl scrollY docScrollTop scrollHeight clientHeight.
  unfold getScrollPercent. rewrite le_of_Z.
  destruct (Z.leb_spec (scrollHeight - clientHeight) 0) as [Hr | Hr].
  - split; [ exists 100%Z; split; [ reflexivity | lia ] | reflexivity ].
  - split; [ | lia ].
    assert (Htop : exists q,
               (if truthy (Fin scrollY) then Fin scrollY
                else Fin docScrollTop) = Fin q).
    { destruct (truthy (Fin scrollY)); eauto. }
    destruct Htop as [q ->].
    rewrite div_by_nonzero by lia.
    unfold mul at 1. unfold of_Z at 3. unfold Math_round.
    rewrite Math_max_of_Z, Math_min_of_Z.
    eexists. split; [ reflexivity | lia ].
Qed.

(** ** The percentage of handleNext *)

Lemma percentage_agrees_below_40 :
  forallb percentage_agrees_upto (map Z.of_nat (seq 0 40)) = true.
Proof. vm_compute. reflexivity. Qed.

(** On every pair up to the first total where the percentage leaves the
    exact rounding, [binary64] gives the product the kernel's floats give. *)
Lemma binary64_matches_kernel_floats :
  forall total correct : Z,
    (0 < total <= 40)%Z -> (0 <= correct <= total + 1)%Z ->
    raw_percentage_matches_float total correct = true.
Proof.
  intros total correct Ht Hc.
  assert (H : forallb
                (fun t => (t =? 0)%Z
                          || forallb (raw_percentage_matches_float t)
                               (map Z.of_nat (seq 0 (Z.to_nat t + 2))))
                (map Z.of_nat (seq 0 41)) = true)
    by (vm_compute; reflexivity).
  pose proof (@forallb_below _ _ H total ltac:(lia)) as Ht'.
  simpl in Ht'. apply orb_true_iff in Ht'. destruct Ht' as [E | Ht'].
  - apply Z.eqb_eq in E. lia.
  - apply (@forallb_below _ _ Ht' correct). lia.
Qed.

(** C7, as the code has it.  For every total below 40 and every count the
    widget can pass with it, the percentage of handleNext is
    round(100 x correct / total), the nearest integer with a tie going up;
    3 correct of 5 give 60 and 2 of 3 give 67. *)
Theorem percentage_is_rounded_quotient_below_40 :
  (forall correct total : Z,
      (0 < total < 40)%Z -> (0 <= correct <= total + 1)%Z ->
      percentage_of correct total = Spec.rounded_percentage correct total)
  /\ percentage_of 3 5 = of_Z 60
  /\ percentage_of 2 3 = of_Z 67.
Proof.
  split; [ | split; vm_compute; reflexivity ].
  intros correct total Ht Hc. apply number_eqb_eq.
  pose proof (@forallb_below _ _ percentage_agrees_below_40 total
                ltac:(lia)) as H.
  unfold percentage_agrees_upto in H.
  apply orb_true_iff in H. destruct H as [E | H].
  - apply Z.eqb_eq in E. lia.
  - apply (@forallb_below _ _ H correct). lia.
Qed.

Lemma percentage_is_rounded_quotient_below_40_witness :
  percentage_of 4 7 = Spec.rounded_percentage 4 7
  /\ percentage_of 4 7 = of_Z 57.
Proof.
  split.
  - apply (proj1 percentage_is_rounded_quotient_below_40 4%Z 7%Z); lia.
  - vm_compute. reflexivity.
Defined.

(** C7, as the specification states it, fails at 23 correct of 40: the exact
    quotient 57.5 rounds to 58, but 23 / 40 is not a double, the product
    with 100 falls just below 57.5 (on the kernel's floats too), and the
    code answers 57. *)
Lemma percentage_23_of_40_is_not_rounded_quotient :
  percentage_of 23 40 = of_Z 57
  /\ Spec.rounded_percentage 23 40 = of_Z 58
  /\ percentage_of 23 40 <> Spec.rounded_percentage 23 40
  /\ PrimFloat.ltb (PrimFloat.mul (PrimFloat.div 23 40) 100) 57.5 = true.
Proof.
  split; [ vm_compute; reflexivity | ].
  split; [ vm_compute; reflexivity | ].
  split; [ vm_compute; discriminate | ].
  vm_compute. reflexivity.
Qed.

(** ** The question count of generateQuiz *)

Section QuestionCount.

Variable StringToNumber : js_string -> number.
Variable ToPrimitive : json -> js_string.

Let questionCount := Backend.questionCount StringToNumber ToPrimitive.

Lemma questionCount_absent :
  questionCount None = of_Z 5 /\ questionCount (Some JNull) = of_Z 5.
Proof. split; reflexivity. Qed.

Lemma questionCount_25 : questionCount (Some (JNumber (of_Z 25))) = of_Z 10.
Proof. reflexivity. Qed.

(** 0, a negative number, -Infinity and NaN are not > 0. *)
Lemma questionCount_not_positive (n : number) :
  gt n (of_Z 0) = false -> questionCount (Some (JNumber n)) = of_Z 5.
Proof.
  intros H.
  unfold questionCount, Backend.questionCount, Backend.count_or_default,
    ToNumber.
  cbv zeta. rewrite H, andb_false_r. reflexivity.
Qed.

(** A value that Number() turns into NaN. *)
Lemma questionCount_not_numeric (v : json) :
  ToNumber StringToNumber ToPrimitive (Some v) = NaN ->
  questionCount (Some v) = of_Z 5.
Proof.
  intros H. unfold questionCount, Backend.questionCount.
  destruct v; simpl in *; try rewrite H; reflexivity.
Qed.

(** From 1 on the count is clamped into 1..10. *)
Lemma questionCount_from_one (q : Q) :
  1 <= q ->
  exists z : Z,
    questionCount (Some (JNumber (Fin q))) = of_Z z /\ (1 <= z <= 10)%Z.
Proof.
  intros Hq.
  unfold questionCount, Backend.questionCount, Backend.count_or_default,
    ToNumber.
  cbv zeta. unfold Number_isFinite, Math_floor, gt, lt, of_Z at 1.
  assert (Hpos : Qle_bool q (inject_Z 0) = false).
  { destruct (Qle_bool q (inject_Z 0)) eqn:E; [ | reflexivity ].
    apply Qle_bool_iff in E. exfalso.
    apply (Qle_not_lt _ _ (Qle_trans _ _ _ Hq E)). reflexivity. }
  rewrite Hpos. cbn [andb negb].
  rewrite Math_min_of_Z. eexists. split; [ reflexivity | ].
  assert (1 <= Qfloor q)%Z.
  { rewrite <- (Qfloor_Z 1). apply Qfloor_resp_le. exact Hq. }
  lia.
Qed.

(** A positive number below 1 passes the test > 0 and is floored to 0. *)
Lemma questionCount_below_one (q : Q) :
  0 < q -> q < 1 -> questionCount (Some (JNumber (Fin q))) = of_Z 0.
Proof.
  intros H0 H1.
  unfold questionCount, Backend.questionCount, Backend.count_or_default,
    ToNumber.
  cbv zeta. unfold Number_isFinite, Math_floor, gt, lt, of_Z at 1.
  assert (Hpos : Qle_bool q (inject_Z 0) = false).
  { destruct (Qle_bool q (inject_Z 0)) eqn:E; [ | reflexivity ].
    apply Qle_bool_iff in E. exfalso. apply (Qle_not_lt _ _ E H0). }
  rewrite Hpos. cbn [andb negb].
  assert (Hf : Qfloor q = 0%Z).
  { pose proof (Qfloor_le q) as Hle. pose proof (Qlt_floor q) as Hlt.
    assert (A : inject_Z (Qfloor q) < inject_Z 1)
      by (eapply Qle_lt_trans; [ exact Hle | exact H1 ]).
    assert (B : inject_Z 0 < inject_Z (Qfloor q + 1))
      by (eapply Qlt_trans; [ exact H0 | exact Hlt ]).
    rewrite <- Zlt_Qlt in A, B. lia. }
  rewrite Hf. reflexivity.
Qed.

End QuestionCount.

(** C3 at the input 0.5: the count is finite and > 0, so the default 5 is
    not taken, and Math.floor makes it 0, below the range 1..10. *)
Theorem questionCount_of_one_half_is_0 :
  forall (StringToNumber : js_string -> number)
         (ToPrimitive : json -> js_string),
    Backend.questionCount StringToNumber ToPrimitive
      (Some (JNumber (Fin (1 # 2)))) = of_Z 0.
Proof. intros. reflexivity. Qed.

(** ** isQuizPayload *)

Lemma strict_eq_of_Z (a b : Z) : strict_eq (of_Z a) (of_Z b) = (a =? b)%Z.
Proof. apply Qeq_bool_inject_Z. Qed.

(** C2, as the code has it.  A payload that isQuizPayload accepts has at
    least one question and every question has exactly 4 options; the
    predicate does not look at correctIndex. *)
Theorem isQuizPayload_questions_and_options :
  forall value : option QuizPayload,
    isQuizPayload value = true ->
    exists v : QuizPayload,
      value = Some v
      /\ (1 <= List.length (questions v))%nat
      /\ forall item : QuizItem,
           In item (questions v) -> List.length (options item) = 4%nat.
Proof.
  intros [v | ] H; [ | discriminate ].
  simpl in H. apply andb_true_iff in H. destruct H as [Hlen Hall].
  exists v. split; [ reflexivity | ]. split.
  - apply Nat.ltb_lt in Hlen. lia.
  - intros item Hin. rewrite forallb_forall in Hall.
    apply Nat.eqb_eq. apply Hall. exact Hin.
Qed.

Lemma isQuizPayload_questions_and_options_witness :
  exists v : QuizPayload,
    Some (payload_with_index (of_Z 2)) = Some v
    /\ (1 <= List.length (questions v))%nat
    /\ forall item : QuizItem,
         In item (questions v) -> List.length (options item) = 4%nat.
Proof.
  apply (isQuizPayload_questions_and_options
           (Some (payload_with_index (of_Z 2)))).
  reflexivity.
Defined.

(** C2, as the specification states it, fails: a payload whose only question
    has correctIndex 7 is accepted. *)
Lemma isQuizPayload_accepts_index_7 :
  isQuizPayload (Some (payload_with_index (of_Z 7))) = true
  /\ exists item : QuizItem,
       In item (questions (payload_with_index (of_Z 7)))
       /\ ~ Spec.valid_index (correctIndex item).
Proof.
  split; [ reflexivity | ].
  eexists. split; [ left; reflexivity | ].
  simpl. intros [z [Hz E]]. rewrite strict_eq_of_Z in E.
  apply Z.eqb_eq in E. lia.
Qed.

(** The backend's schema is where the index is checked: what it accepts is
    accepted by isQuizPayload and has valid indices. *)
Lemma quizSchema_valid_index (object : QuizPayload) :
  Backend.quizSchema object = true ->
  isQuizPayload (Some object) = true
  /\ forall item : QuizItem,
       In item (questions object) -> Spec.valid_index (correctIndex item).
Proof.
  unfold Backend.quizSchema. intros H.
  apply andb_true_iff in H. destruct H as [Hall Hlen].
  rewrite forallb_forall in Hall. split.
  - simpl. apply andb_true_iff. split.
    + apply Nat.leb_le in Hlen. apply Nat.ltb_lt. lia.
    + apply forallb_forall. intros item Hin.
      specialize (Hall item Hin). unfold Backend.quizItemSchema in Hall.
      repeat (apply andb_true_iff in Hall; destruct Hall as [Hall ?]).
      exact Hall.
  - intros item Hin. specialize (Hall item Hin).
    unfold Backend.quizItemSchema in Hall.
    apply andb_true_iff in Hall. destruct Hall as [Hall Hmax].
    apply andb_true_iff in Hall. destruct Hall as [Hall Hmin].
    apply andb_true_iff in Hall. destruct Hall as [_ Hint].
    destruct (correctIndex item) as [ | neg | q]; try discriminate.
    unfold Number_isInteger in Hint. unfold le, of_Z in Hmin, Hmax.
    apply Qeq_bool_iff in Hint.
    apply Qle_bool_iff in Hmin. apply Qle_bool_iff in Hmax.
    rewrite Hint in Hmin, Hmax. rewrite <- Zle_Qle in Hmin, Hmax.
    exists (Qfloor q). split; [ lia | ].
    unfold strict_eq, of_Z. apply Qeq_bool_iff. exact Hint.
Qed.

(** ** Collected page text *)

Section Whitespace.

Import Spec.

Lemma no_adjacent_whitespace_nil : no_adjacent_whitespace [].
Proof. intros [ | b before] after x y E; discriminate. Qed.

Lemma no_adjacent_whitespace_cons (c : code_unit) (s : js_string) :
  no_adjacent_whitespace s ->
  (is_whitespace c = true -> starts_with_whitespace s = false) ->
  no_adjacent_whitespace (c :: s).
Proof.
  intros Hs Hc [ | b before] after x y E Hx Hy.
  - simpl in E. injection E as E1 E2. subst x s. specialize (Hc Hx).
    simpl in Hc. congruence.
  - simpl in E. injection E as _ E. exact (Hs _ _ _ _ E Hx Hy).
Qed.

Lemma no_adjacent_whitespace_app_l (s t : js_string) :
  no_adjacent_whitespace (s ++ t) -> no_adjacent_whitespace s.
Proof.
  intros H before after c d E. apply (H before (after ++ t) c d).
  rewrite E, <- app_assoc. reflexivity.
Qed.

Lemma no_adjacent_whitespace_app_r (s t : js_string) :
  no_adjacent_whitespace (s ++ t) -> no_adjacent_whitespace t.
Proof.
  intros H before after c d E. apply (H (s ++ before) after c d).
  rewrite E, <- app_assoc. reflexivity.
Qed.

Lemma replace_whitespace_from_shape (s : js_string) :
  forall in_run : bool,
    no_adjacent_whitespace (replace_whitespace_from in_run s)
    /\ (in_run = true ->
        starts_with_whitespace (replace_whitespace_from in_run s) = false).
Proof.
  induction s as [ | c r IH]; intros in_run.
  - split; [ apply no_adjacent_whitespace_nil | reflexivity ].
  - simpl. destruct (is_whitespace c) eqn:Hc.
    + destruct in_run.
      * apply IH.
      * split; [ | discriminate ].
        apply no_adjacent_whitespace_cons; [ apply IH | ].
        intros _. apply IH. reflexivity.
    + split.
      * apply no_adjacent_whitespace_cons; [ apply IH | congruence ].
      * intros _. simpl. exact Hc.
Qed.

(** trimStart drops a prefix, trimEnd a suffix. *)
Lemma trimStart_suffix (s : js_string) :
  exists dropped, s = dropped ++ trimStart s.
Proof.
  induction s as [ | c r [dropped IH]].
  - exists []. reflexivity.
  - simpl. destruct (is_whitespace c).
    + exists (c :: dropped). simpl. now rewrite <- IH.
    + exists []. reflexivity.
Qed.

Lemma trimEnd_prefix (s : js_string) :
  exists dropped, s = trimEnd s ++ dropped.
Proof.
  unfold trimEnd. destruct (trimStart_suffix (rev s)) as [dropped E].
  exists (rev dropped). rewrite <- rev_app_distr, <- E.
  symmetry. apply rev_involutive.
Qed.

Lemma trimStart_starts (s : js_string) :
  starts_with_whitespace (trimStart s) = false.
Proof.
  induction s as [ | c r IH]; [ reflexivity | ].
  simpl. destruct (is_whitespace c) eqn:Hc; [ exact IH | exact Hc ].
Qed.

Lemma trimEnd_ends (s : js_string) :
  ends_with_whitespace (trimEnd s) = false.
Proof.
  unfold ends_with_whitespace, trimEnd. rewrite rev_involutive.
  apply trimStart_starts.
Qed.

Lemma starts_with_whitespace_prefix (s t : js_string) :
  starts_with_whitespace (s ++ t) = false ->
  starts_with_whitespace s = false.
Proof. destruct s; [ reflexivity | exact (fun H => H) ]. Qed.

Lemma trim_starts (s : js_string) :
  starts_with_whitespace (trim s) = false.
Proof.
  unfold trim. destruct (trimEnd_prefix (trimStart s)) as [dropped E].
  apply starts_with_whitespace_prefix with (t := dropped).
  rewrite <- E. apply trimStart_starts.
Qed.

(** What s.replace(/\s+/g, " ").trim().slice(0, n) looks like, for every s
    and n: the tail of collectPageText and of fetchPageText. *)
Lemma normalized_text_shape (n : nat) (s : js_string) :
  let r := slice0 n (trim (replace_whitespace s)) in
  (List.length r <= n)%nat
  /\ no_adjacent_whitespace r
  /\ starts_with_whitespace r = false
  /\ (ends_with_whitespace r = false \/ List.length r = n).
Proof.
  unfold slice0. set (t := trim (replace_whitespace s)).
  assert (Ht : no_adjacent_whitespace t).
  { unfold t, trim.
    destruct (trimStart_suffix (replace_whitespace s)) as [d1 E1].
    destruct (trimEnd_prefix (trimStart (replace_whitespace s)))
      as [d2 E2].
    apply no_adjacent_whitespace_app_l with (t := d2). rewrite <- E2.
    apply no_adjacent_whitespace_app_r with (s := d1). rewrite <- E1.
    apply (replace_whitespace_from_shape s false). }
  cbv zeta. split; [ apply firstn_le_length | ]. split; [ | split ].
  - apply no_adjacent_whitespace_app_l with (t := skipn n t).
    rewrite firstn_skipn. exact Ht.
  - apply starts_with_whitespace_prefix with (t := skipn n t).
    rewrite firstn_skipn. apply trim_starts.
  - destruct (Nat.le_gt_cases (List.length t) n) as [Hle | Hgt].
    + left. rewrite firstn_all2 by exact Hle. apply trimEnd_ends.
    + right. apply firstn_length_le. lia.
Qed.

End Whitespace.

(** C6, as the code has it.  The collected page text has at most 9000 code
    units, no two consecutive whitespace characters and no leading
    whitespace; it has no trailing whitespace either unless it was cut at
    9000, the cut coming after the trim. *)
Theorem collectPageText_shape :
  forall innerText : option js_string,
    let r := collectPageText innerText in
    (List.length r <= 9000)%nat
    /\ Spec.no_adjacent_whitespace r
    /\ Spec.starts_with_whitespace r = false
    /\ (Spec.ends_with_whitespace r = false \/ List.length r = 9000%nat).
Proof.
  intros innerText. unfold collectPageText.
  apply (normalized_text_shape MAX_TEXT_LENGTH).
Qed.

(** The text the backend extracts from a fetched page has the same shape. *)
Lemma fetchPageText_shape (fetched : Backend.fetch_outcome) :
  let r := Backend.fetchPageText fetched in
  (List.length r <= 9000)%nat
  /\ Spec.no_adjacent_whitespace r
  /\ Spec.starts_with_whitespace r = false
  /\ (Spec.ends_with_whitespace r = false \/ List.length r = 9000%nat).
Proof.
  assert (Hnil : (List.length (@nil code_unit) <= 9000)%nat
                 /\ Spec.no_adjacent_whitespace []
                 /\ Spec.starts_with_whitespace [] = false
                 /\ (Spec.ends_with_whitespace [] = false
                     \/ List.length (@nil code_unit) = 9000%nat)).
  { split; [ simpl; lia | ].
    split; [ apply no_adjacent_whitespace_nil | ].
    split; [ reflexivity | left; reflexivity ]. }
  destruct fetched as [ | [ | ] [html | ]]; try exact Hnil.
  unfold Backend.fetchPageText, Backend.stripHtml.
  apply (normalized_text_shape MAX_TEXT_LENGTH).
Qed.

(** C6, as the specification states it, fails on a page whose text is 8999
    letters, a space and one more letter: the cut at 9000 leaves the space at
    the end. *)
Lemma collectPageText_trailing_space :
  Spec.ends_with_whitespace (collectPageText (Some long_page_text)) = true
  /\ List.length (collectPageText (Some long_page_text)) = 9000%nat.
Proof. split; vm_compute; reflexivity. Qed.

(** ** POST /api/quiz *)

Section HandleQuiz.

Variable StringToNumber : js_string -> number.
Variable ToPrimitive : json -> js_string.
Variable fetch : js_string -> Backend.fetch_outcome.
Variable generateObject : Backend.Prompt -> Backend.generation.

Let handleQuiz :=
  Backend.handleQuiz StringToNumber ToPrimitive fetch generateObject.
Let generateQuiz :=
  Backend.generateQuiz StringToNumber ToPrimitive fetch generateObject.






End HandleQuiz.



(** ** saveQuizResult *)

(** C5.  With a session, saveQuizResult inserts the tuple with the session's
    user id, the page's URL and its title and answers true, or, when the
    insert fails, logs the error, changes nothing the user sees and answers
    false.  Without a session it makes the tuple the pending result in place
    of any earlier one, leaves the table as it is and answers false. *)
Theorem saveQuizResult_persists_or_defers :
  forall (insert_error : option js_string) (score total : Z)
         (percentage : number) (s : System),
    let s' := fst (saveQuizResult insert_error score total percentage s) in
    let saved := snd (saveQuizResult insert_error score total percentage s) in
    match auth_session (world s), insert_error with
    | Some session, None =>
        saved = true
        /\ quiz_results (world s')
           = quiz_results (world s) ++ [row_of s session score total percentage]
        /\ console_errors (world s') = console_errors (world s)
        /\ pendingResult (widget s') = pendingResult (widget s)
    | Some session, Some e =>
        saved = false
        /\ quiz_results (world s') = quiz_results (world s)
        /\ console_errors (world s')
           = console_errors (world s) ++ [(lit "Error saving quiz result:", e)]
        /\ widget s' = widget s
    | None, _ =>
        saved = false
        /\ pendingResult (widget s')
           = Some {| score := score; total := total;
                     percentage := percentage |}
        /\ world s' = world s
    end.
Proof.
  intros insert_error score total percentage s. cbv zeta.
  unfold saveQuizResult.
  destruct (auth_session (world s)) as [session | ];
    [ destruct insert_error as [e | ] | ]; simpl; auto.
Qed.

(** ** openWidget *)

(** C9.  In every state openWidget clears the selection, hides the result,
    puts the question index and the correct count at 0 and the completion
    flag at false; it sends one quiz request when the status is idle or
    error, and otherwise sends none and leaves payload and status alone. *)
Theorem openWidget_resets_and_requests :
  forall s : System,
    let s' := openWidget s in
    selectedIndex (widget s') = None
    /\ showResult (widget s') = false
    /\ questionIndex (widget s') = 0%Z
    /\ correctCount (widget s') = 0%Z
    /\ isComplete (widget s') = false
    /\ isOpen (widget s') = true
    /\ match status (widget s) with
       | idle | error =>
           sent_messages (world s') = sent_messages (world s) ++ [request_of s]
           /\ status (widget s') = loading
       | loading | ready =>
           sent_messages (world s') = sent_messages (world s)
           /\ quiz (widget s') = quiz (widget s)
           /\ status (widget s') = status (widget s)
       end.
Proof.
  intros s. unfold openWidget. cbv zeta.
  destruct (status (widget s)) eqn:E; simpl; rewrite ?E; repeat split.
Qed.

(** ** The pending result and the auth listener *)

(** After a render the subscribed listener closes over the current
    pendingResult. *)
Lemma run_effects_listener (s : System) :
  listener_pendingResult (run_effects s)
  = pendingResult (widget (run_effects s)).
Proof.
  unfold run_effects.
  destruct (pending_eqb _ _) eqn:E; [ | reflexivity ].
  apply pending_eqb_eq in E. exact E.
Qed.

Lemma run_effects_keeps (s : System) :
  quiz_results (world (run_effects s)) = quiz_results (world s)
  /\ console_errors (world (run_effects s)) = console_errors (world s)
  /\ pendingResult (widget (run_effects s)) = pendingResult (widget s).
Proof.
  unfold run_effects. destruct (pending_eqb _ _); simpl; auto.
Qed.

Lemma number_eqb_refl (x : number) : number_eqb x x = true.
Proof.
  destruct x as [ | neg | q]; simpl; [ reflexivity | apply Bool.eqb_reflx | ].
  now rewrite Z.eqb_refl, Pos.eqb_refl.
Qed.

Lemma pending_eqb_refl (p : option PendingResult) : pending_eqb p p = true.
Proof.
  destruct p as [p | ]; simpl; [ | reflexivity ].
  now rewrite !Z.eqb_refl, number_eqb_refl.
Qed.

(** What the render after an event leaves alone. *)
Lemma run_effects_frame (s : System) :
  world (run_effects s) = world s
  /\ flushes (run_effects s) = flushes s
  /\ pendingResult (widget (run_effects s)) = pendingResult (widget s)
  /\ resultSaved (widget (run_effects s)) = resultSaved (widget s).
Proof. unfold run_effects. destruct (pending_eqb _ _); simpl; auto. Qed.

(** A notification that carries a session inserts nothing by itself: it
    starts a flush of the result its listener closes over, and the pending
    result and the subscribed listener stay as they are. *)
Lemma sign_in_starts_flush (s : System) (p : PendingResult)
  (session : Session) :
  pendingResult (widget s) = Some p ->
  listener_pendingResult s = Some p ->
  let s1 := dispatch s (AuthStateChange (Some session)) in
  flushes s1 = flushes s ++ [p]
  /\ pendingResult (widget s1) = Some p
  /\ listener_pendingResult s1 = Some p
  /\ auth_session (world s1) = Some session
  /\ quiz_results (world s1) = quiz_results (world s)
  /\ console_errors (world s1) = console_errors (world s)
  /\ resultSaved (widget s1) = resultSaved (widget s)
  /\ Trace.same_page (world s) (world s1).
Proof.
  intros Hp Hl. cbv zeta. unfold dispatch.
  rewrite run_effects_listener.
  destruct (run_effects_frame (handle (AuthStateChange (Some session)) s))
    as [Hw [Hf [Hpr Hsaved]]].
  rewrite Hw, Hf, Hpr, Hsaved.
  simpl. unfold onAuthStateChange, authListener. rewrite Hl. simpl.
  rewrite Hp. repeat split.
Qed.

(** A flush that settles while the provider has a session makes its one
    insert, or logs the refusal, and then empties the slot, whatever the
    slot holds by then. *)
Lemma flush_settles (s : System) (p : PendingResult) (session : Session)
  (k : nat) (insert_error : option js_string) :
  nth_error (flushes s) k = Some p ->
  auth_session (world s) = Some session ->
  let s1 := dispatch s (FlushSettled k insert_error) in
  flushes s1 = drop_nth k (flushes s)
  /\ pendingResult (widget s1) = None
  /\ listener_pendingResult s1 = None
  /\ auth_session (world s1) = Some session
  /\ quiz_results (world s1)
     = quiz_results (world s)
       ++ match insert_error with
          | None => [row_of s session (score p) (total p) (percentage p)]
          | Some _ => []
          end
  /\ console_errors (world s1)
     = console_errors (world s)
       ++ match insert_error with
          | None => []
          | Some e => [(lit "Error saving quiz result:", e)]
          end
  /\ resultSaved (widget s1)
     = match insert_error with
       | None => true
       | Some _ => resultSaved (widget s)
       end
  /\ Trace.same_page (world s) (world s1).
Proof.
  intros Hk Hs. cbv zeta. unfold dispatch.
  rewrite run_effects_listener.
  destruct (run_effects_frame (handle (FlushSettled k insert_error) s))
    as [Hw [Hf [Hpr Hsaved]]].
  rewrite Hw, Hf, Hpr, Hsaved.
  simpl. unfold flushSettled. rewrite Hk.
  unfold authListener_resumed, saveQuizResult. simpl. rewrite Hs.
  destruct insert_error; simpl; rewrite ?app_nil_r; repeat split.
Qed.

(** With nothing pending and no flush in flight, a notification of the auth
    provider inserts nothing and logs nothing. *)
Lemma auth_event_without_pending (s : System) (e : event) :
  Spec.auth_event e ->
  pendingResult (widget s) = None ->
  listener_pendingResult s = None ->
  flushes s = [] ->
  quiz_results (world (dispatch s e)) = quiz_results (world s)
  /\ console_errors (world (dispatch s e)) = console_errors (world s)
  /\ pendingResult (widget (dispatch s e)) = None
  /\ listener_pendingResult (dispatch s e) = None
  /\ flushes (dispatch s e) = [].
Proof.
  intros He Hp Hl Hf.
  destruct e as [ | | | | | | notified | k insert_error]; try contradiction;
    unfold dispatch; rewrite run_effects_listener.
  - destruct (run_effects_frame (handle (AuthStateChange notified) s))
      as [Hw [Hfl [Hpr _]]].
    rewrite Hw, Hfl, Hpr.
    simpl. unfold onAuthStateChange, authListener. rewrite Hl.
    destruct notified; simpl; auto.
  - destruct (run_effects_frame (handle (FlushSettled k insert_error) s))
      as [Hw [Hfl [Hpr _]]].
    rewrite Hw, Hfl, Hpr.
    simpl. unfold flushSettled. rewrite Hf.
    destruct k; simpl; auto.
Qed.

Lemma auth_events_without_pending (later : list event) :
  Forall Spec.auth_event later ->
  forall s : System,
    pendingResult (widget s) = None ->
    listener_pendingResult s = None ->
    flushes s = [] ->
    quiz_results (world (run s later)) = quiz_results (world s)
    /\ console_errors (world (run s later)) = console_errors (world s)
    /\ pendingResult (widget (run s later)) = None.
Proof.
  induction 1 as [ | e later He _ IH]; intros s Hp Hl Hf.
  - simpl. auto.
  - destruct (auth_event_without_pending s e He Hp Hl Hf)
      as [Hq [Hc [Hp' [Hl' Hf']]]].
    change (run s (e :: later)) with (run (dispatch s e) later).
    destruct (IH _ Hp' Hl' Hf') as [Hq2 [Hc2 Hp2]].
    rewrite Hq2, Hc2, Hq, Hc. auto.
Qed.

(** What the code does keep: when the flush a sign-in starts settles
    before another notification arrives, the pending result is flushed by
    one call of saveQuizResult (one insert with the new session's user id,
    or one logged error when the insert fails), the slot is empty
    afterwards, and no later notification inserts or logs anything. *)
Lemma flush_without_overlap (s : System) (p : PendingResult)
  (session : Session) (insert_error : option js_string) :
  pendingResult (widget s) = Some p ->
  listener_pendingResult s = Some p ->
  flushes s = [] ->
  let s1 :=
    run s [AuthStateChange (Some session); FlushSettled 0 insert_error] in
  pendingResult (widget s1) = None
  /\ quiz_results (world s1)
     = quiz_results (world s)
       ++ match insert_error with
          | None => [row_of s session (score p) (total p) (percentage p)]
          | Some _ => []
          end
  /\ console_errors (world s1)
     = console_errors (world s)
       ++ match insert_error with
          | None => []
          | Some e => [(lit "Error saving quiz result:", e)]
          end
  /\ forall later : list event,
       Forall Spec.auth_event later ->
       quiz_results (world (run s1 later)) = quiz_results (world s1)
       /\ console_errors (world (run s1 later)) = console_errors (world s1)
       /\ pendingResult (widget (run s1 later)) = None.
Proof.
  intros Hp Hl Hf. cbv zeta.
  change (run s [AuthStateChange (Some session); FlushSettled 0 insert_error])
    with (dispatch (dispatch s (AuthStateChange (Some session)))
            (FlushSettled 0 insert_error)).
  destruct (sign_in_starts_flush s session Hp Hl)
    as [Hf1 [_ [_ [Hs1 [Hq1 [Hc1 [_ [Hhref [Htitle _]]]]]]]]].
  set (s0 := dispatch s (AuthStateChange (Some session))) in *.
  rewrite Hf in Hf1. simpl in Hf1.
  assert (Hk : nth_error (flushes s0) 0 = Some p) by (rewrite Hf1; reflexivity).
  destruct (flush_settles s0 0 insert_error Hk Hs1)
    as [Hf2 [Hp2 [Hl2 [_ [Hq2 [Hc2 _]]]]]].
  rewrite Hf1 in Hf2. unfold drop_nth in Hf2. simpl in Hf2.
  split; [ exact Hp2 | ]. split; [ | split ].
  - rewrite Hq2, Hq1. unfold row_of. rewrite Hhref, Htitle. reflexivity.
  - rewrite Hc2, Hc1. reflexivity.
  - intros later Hlater.
    apply auth_events_without_pending; assumption.
Qed.

(** Nothing in the listener tells a second invocation that a flush is in
    flight: two notifications with a session before the first flush has
    settled flush the same result twice. *)
Lemma overlapping_flushes_insert_twice (s : System) (p : PendingResult)
  (session : Session) :
  pendingResult (widget s) = Some p ->
  listener_pendingResult s = Some p ->
  flushes s = [] ->
  let s' :=
    run s [ AuthStateChange (Some session); AuthStateChange (Some session);
            FlushSettled 0 None; FlushSettled 0 None ] in
  quiz_results (world s')
  = quiz_results (world s)
    ++ [ row_of s session (score p) (total p) (percentage p);
         row_of s session (score p) (total p) (percentage p) ]
  /\ pendingResult (widget s') = None
  /\ flushes s' = [].
Proof.
  intros Hp Hl Hf. cbv zeta.
  change (run s [ AuthStateChange (Some session);
                  AuthStateChange (Some session);
                  FlushSettled 0 None; FlushSettled 0 None ])
    with (dispatch
            (dispatch
               (dispatch (dispatch s (AuthStateChange (Some session)))
                  (AuthStateChange (Some session)))
               (FlushSettled 0 None))
            (FlushSettled 0 None)).
  destruct (sign_in_starts_flush s session Hp Hl)
    as [Hf1 [Hp1 [Hl1 [_ [Hq1 [_ [_ [Hhref1 [Htitle1 _]]]]]]]]].
  set (s1 := dispatch s (AuthStateChange (Some session))) in *.
  destruct (sign_in_starts_flush s1 session Hp1 Hl1)
    as [Hf2 [_ [_ [Hs2 [Hq2 [_ [_ [Hhref2 [Htitle2 _]]]]]]]]].
  set (s2 := dispatch s1 (AuthStateChange (Some session))) in *.
  rewrite Hf1, Hf in Hf2. simpl in Hf2.
  assert (Hk2 : nth_error (flushes s2) 0 = Some p)
    by (rewrite Hf2; reflexivity).
  destruct (flush_settles s2 0 None Hk2 Hs2)
    as [Hf3 [_ [_ [Hs3 [Hq3 [_ [_ [Hhref3 [Htitle3 _]]]]]]]]].
  set (s3 := dispatch s2 (FlushSettled 0 None)) in *.
  rewrite Hf2 in Hf3. unfold drop_nth in Hf3. simpl in Hf3.
  assert (Hk3 : nth_error (flushes s3) 0 = Some p)
    by (rewrite Hf3; reflexivity).
  destruct (flush_settles s3 0 None Hk3 Hs3)
    as [Hf4 [Hp4 [_ [_ [Hq4 _]]]]].
  rewrite Hf3 in Hf4. unfold drop_nth in Hf4. simpl in Hf4.
  split; [ | split; assumption ].
  rewrite Hq4, Hq3, Hq2, Hq1, <- app_assoc. simpl.
  unfold row_of.
  rewrite <- Hhref3, <- Htitle3, <- Hhref2, <- Htitle2, <- Hhref1, <- Htitle1.
  reflexivity.
Qed.

(** C4.  A visitor finishes a quiz signed out, so that the result, 0 of 1,
    waits in the pending slot.  Two sign-in notifications, the second
    arriving while the flush of the first is still awaited, insert that
    result twice; had the first flush settled before the second
    notification, it would have been inserted once. *)
Theorem overlapping_sign_ins_insert_twice :
  let waiting := {| score := 0; total := 1; percentage := of_Z 0 |} in
  let row :=
    row_of finished_with_wrong_answer example_session
      (score waiting) (total waiting) (percentage waiting) in
  pendingResult (widget finished_with_wrong_answer) = Some waiting
  /\ quiz_results (world finished_with_wrong_answer) = []
  /\ quiz_results
       (world (run finished_with_wrong_answer overlapping_sign_ins))
     = [row; row]
  /\ quiz_results
       (world (run finished_with_wrong_answer successive_sign_ins))
     = [row].
Proof. cbv zeta. repeat split; vm_compute; reflexivity. Qed.

Lemma getScrollPercent_integer_in_0_100_witness :
  getScrollPercent binary64 0 0 600 800 = of_Z 100
  /\ exists z : Z,
       getScrollPercent binary64 350 0 1000 300 = of_Z z
       /\ (0 <= z <= 100)%Z.
Proof.
  split.
  - apply (getScrollPercent_integer_in_0_100 binary64 0 0 600 800). lia.
  - apply (getScrollPercent_integer_in_0_100 binary64 350 0 1000 300).
Defined.

(** ** handleNext at the last question *)

Lemma derived_values_with_progress (w : Widget) (sel : option Z)
  (shown complete : bool) (count : Z) :
  let w' := with_progress w sel shown (questionIndex w) count complete in
  currentQuestion w' = currentQuestion w
  /\ totalQuestions w' = totalQuestions w
  /\ isLastQuestion w' = isLastQuestion w.
Proof. cbv zeta. repeat split. Qed.

(** Submitting a correct answer adds 1 to correctCount; finishing on the
    last question then adds 1 again to what it saves, although the render
    that handed handleNext its correctCount came after the submit. *)
Lemma handleNext_submit_then_finish (insert_error : option js_string)
  (s : System) (item : QuizItem) (selected : Z) :
  currentQuestion (widget s) = Some item ->
  selectedIndex (widget s) = Some selected ->
  showResult (widget s) = false ->
  isLastQuestion (widget s) = true ->
  strict_eq (of_Z selected) (correctIndex item) = true ->
  let c := correctCount (widget s) in
  let submitted := handleNext insert_error s in
  correctCount (widget submitted) = (c + 1)%Z
  /\ handleNext insert_error submitted
     = fst (saveQuizResult insert_error (c + 2) (totalQuestions (widget s))
              (percentage_of (c + 2) (totalQuestions (widget s)))
              (with_widget s
                 (with_progress (widget s) (Some selected) true
                    (questionIndex (widget s)) (c + 1) true))).
Proof.
  intros Hcur Hsel Hshow Hlast Hok. cbv zeta.
  assert (Hsub : handleNext insert_error s
                 = with_widget s
                     (with_progress (widget s) (Some selected) true
                        (questionIndex (widget s))
                        (correctCount (widget s) + 1)
                        (isComplete (widget s)))).
  { unfold handleNext. rewrite Hcur, Hsel, Hshow, Hok. reflexivity. }
  rewrite Hsub. split; [ reflexivity | ].
  unfold handleNext. simpl widget.
  destruct (derived_values_with_progress (widget s) (Some selected) true
              (isComplete (widget s)) (correctCount (widget s) + 1))
    as [Hc [Ht Hl]].
  rewrite Hc, Ht, Hl, Hcur, Hlast. simpl selectedIndex. simpl showResult.
  cbv beta iota zeta. rewrite Hok. cbn [negb]. simpl correctCount.
  replace (correctCount (widget s) + 1 + 1)%Z
    with (correctCount (widget s) + 2)%Z by lia.
  reflexivity.
Qed.

(** C1 on a quiz of one question answered correctly: the completion card
    shows correctCount, 1 of 1, while the result handed to saveQuizResult
    has score 2 of 1 and 200 percent. *)
Theorem last_correct_answer_is_counted_twice :
  correctCount (widget finished_unauthenticated) = 1%Z
  /\ totalQuestions (widget finished_unauthenticated) = 1%Z
  /\ pendingResult (widget finished_unauthenticated)
     = Some {| score := 2; total := 1; percentage := of_Z 200 |}.
Proof. repeat split; vm_compute; reflexivity. Qed.

(** The same defect with a session: the row inserted for five questions all
    answered correctly has score 6 of 5. *)
Lemma five_correct_answers_are_saved_as_six :
  let s :=
    run (mount example_page)
      ([ AuthStateChange (Some example_session);
         MessageReply (ReplyOk (Some five_questions)); ClickFab ]
       ++ List.concat
            (repeat [ClickOption 0; ClickPrimary None; ClickPrimary None] 5))
  in
  correctCount (widget s) = 5%Z
  /\ quiz_results (world s)
     = [ {| row_user_id := lit "user-1"; row_score := 6;
            row_total_questions := 5; row_percentage := of_Z 120;
            row_page_url := lit "https://example.org/doc";
            row_page_title := lit "Doc" |} ].
Proof. cbv zeta. split; vm_compute; reflexivity. Qed.

(** * Further properties of the code *)

(** ** Backend: the count and the text that reach the prompt *)


(** X2.  The page text generateQuiz works with never exceeds 9000 code
    units, whether it is the request's text or text fetched from the url. *)
Theorem pageText_at_most_9000 :
  forall (fetch : js_string -> Backend.fetch_outcome)
         (params : Backend.GenerateQuizParams),
    (List.length (Backend.pageText fetch params) <= 9000)%nat.
Proof.
  intros fetch params. change 9000%nat with MAX_TEXT_LENGTH.
  assert (Hfetch : forall f,
             (List.length (Backend.fetchPageText f) <= MAX_TEXT_LENGTH)%nat).
  { intros [ | [ | ] [html | ]]; unfold Backend.fetchPageText;
      try apply Nat.le_0_l.
    apply firstn_le_length. }
  unfold Backend.pageText.
  destruct (Backend.text params) as [[ | | | t | | ] | ]; try apply Hfetch.
  destruct (0 <? List.length (trim t))%nat; [ | apply Hfetch ].
  apply firstn_le_length.
Qed.

Lemma trimStart_keeps_non_whitespace (l m : js_string) (c : code_unit) :
  is_whitespace c = false -> trimStart (l ++ c :: m) <> [].
Proof.
  intros Hc. induction l as [ | d l IH]; simpl.
  - rewrite Hc. discriminate.
  - destruct (is_whitespace d); [ exact IH | discriminate ].
Qed.

Lemma trim_of_trimmed_start (s : js_string) :
  s <> [] -> Spec.starts_with_whitespace s = false -> trim s <> [].
Proof.
  intros Hs Hstart. destruct s as [ | c r]; [ congruence | ].
  simpl in Hstart. unfold trim. simpl. rewrite Hstart.
  unfold trimEnd. simpl rev. intros E.
  apply (f_equal (@rev code_unit)) in E. rewrite rev_involutive in E.
  simpl in E. exact (trimStart_keeps_non_whitespace (rev r) [] c Hstart E).
Qed.

(** X3.  Text that the content script collected is taken by the backend as
    it is: when the page has some, pageText is exactly the collected text and
    nothing is fetched; when it has none, the backend fetches the url. *)
Theorem collected_text_reaches_the_prompt :
  forall (fetch : js_string -> Backend.fetch_outcome)
         (innerText : option js_string) (u : js_string)
         (title count : option json),
    let params :=
      {| Backend.url := u; Backend.title := title;
         Backend.text := Some (JString (collectPageText innerText));
         Backend.count := count |} in
    (collectPageText innerText <> [] ->
     Backend.pageText fetch params = collectPageText innerText)
    /\ (collectPageText innerText = [] ->
        Backend.pageText fetch params = Backend.fetchPageText (fetch u)).
Proof.
  intros fetch innerText u title count. cbv zeta.
  unfold Backend.pageText. simpl Backend.text. simpl Backend.url.
  destruct (normalized_text_shape MAX_TEXT_LENGTH
              (match innerText with Some t => t | None => [] end))
    as [Hlen [_ [Hstart _]]].
  fold (collectPageText innerText) in Hlen, Hstart.
  set (r := collectPageText innerText) in *. split.
  - intros Hr.
    pose proof (trim_of_trimmed_start Hr Hstart) as Ht.
    destruct (trim r) as [ | c t] eqn:E; [ congruence | ].
    cbn [List.length Nat.ltb Nat.leb]. unfold slice0.
    apply firstn_all2. exact Hlen.
  - intros ->. reflexivity.
Qed.

(** ** Backend: what stripHtml leaves *)

Section Tags.

Import Backend Shape.

Lemma In_GT_replace_tags_from (s : js_string) :
  forall skip : nat,
    In GT_SIGN (replace_tags_from skip s) -> In GT_SIGN s.
Proof.
  induction s as [ | c r IH]; intros skip H; [ exact H | ].
  simpl in H. destruct skip as [ | k].
  - destruct (_ && _).
    + destruct H as [E | H]; [ discriminate | right; exact (IH _ H) ].
    + destruct H as [E | H]; [ left; exact E | right; exact (IH _ H) ].
  - right. exact (IH _ H).
Qed.

Lemma tag_body_without_GT (r : js_string) :
  nth_error r (tag_body_length r) = None <-> ~ In GT_SIGN r.
Proof.
  induction r as [ | c r IH]; simpl.
  - split; [ intros _ H; exact H | reflexivity ].
  - destruct (N.eqb_spec c GT_SIGN) as [-> | Hc]; simpl.
    + split; [ discriminate | intros H; exfalso; apply H; left; reflexivity ].
    + rewrite IH. split.
      * intros H [E | Hin]; [ congruence | exact (H Hin) ].
      * intros H Hin. apply H. right. exact Hin.
Qed.

Lemma replace_tags_from_tag_free (s : js_string) :
  forall skip : nat, tag_free (replace_tags_from skip s).
Proof.
  induction s as [ | c r IH]; intros skip; [ exact I | ].
  simpl. destruct skip as [ | k]; [ | apply IH ].
  destruct (N.eqb_spec c LT_SIGN) as [-> | Hc]; cbn [andb].
  - destruct (0 <? tag_body_length r)%nat eqn:Hn; cbn [andb].
    + destruct (nth_error r (tag_body_length r)) eqn:Hnth.
      * split; [ discriminate | apply IH ].
      * split; [ intros _ | apply IH ]. right.
        intros Hin. apply In_GT_replace_tags_from in Hin.
        apply (proj1 (tag_body_without_GT r) Hnth Hin).
    + split; [ intros _ | apply IH ].
      apply Nat.ltb_ge in Hn.
      destruct r as [ | d r']; [ right; intros [] | ].
      simpl in Hn. destruct (N.eqb_spec d GT_SIGN) as [-> | Hd]; [ | lia ].
      left. reflexivity.
  - split; [ congruence | apply IH ].
Qed.

Lemma replace_tags_of_tag_free (s : js_string) :
  tag_free s -> replace_tags s = s.
Proof.
  unfold replace_tags. induction s as [ | c r IH]; [ reflexivity | ].
  intros [Hc Hr]. simpl.
  assert (Hno : N.eqb c LT_SIGN && (0 <? tag_body_length r)%nat
                && match nth_error r (tag_body_length r) with
                   | Some _ => true
                   | None => false
                   end = false).
  { destruct (N.eqb_spec c LT_SIGN) as [E | _]; [ | reflexivity ].
    cbn [andb]. destruct (Hc E) as [Hhead | Hnone].
    - destruct r as [ | d r']; [ discriminate | ].
      injection Hhead as ->. reflexivity.
    - apply tag_body_without_GT in Hnone. rewrite Hnone.
      apply andb_false_r. }
  rewrite Hno. f_equal. exact (IH Hr).
Qed.

Lemma tag_free_suffix (s t : js_string) : tag_free (s ++ t) -> tag_free t.
Proof.
  induction s as [ | c s IH]; [ exact (fun H => H) | ].
  intros [_ H]. exact (IH H).
Qed.

Lemma tag_free_prefix (s t : js_string) : tag_free (s ++ t) -> tag_free s.
Proof.
  induction s as [ | c s IH]; [ intros _; exact I | ].
  intros [Hc H]. split; [ | exact (IH H) ].
  intros E. destruct s as [ | d s']; [ right; intros [] | ].
  destruct (Hc E) as [Hhead | Hnone]; [ left; exact Hhead | right ].
  intros Hin. apply Hnone. apply in_or_app. left. exact Hin.
Qed.

Lemma In_GT_replace_whitespace_from (s : js_string) :
  forall in_run : bool,
    In GT_SIGN (replace_whitespace_from in_run s) -> In GT_SIGN s.
Proof.
  induction s as [ | c r IH]; intros in_run H; [ exact H | ].
  simpl in H. destruct (is_whitespace c).
  - destruct in_run.
    + right. exact (IH _ H).
    + destruct H as [E | H]; [ discriminate | right; exact (IH _ H) ].
  - destruct H as [E | H]; [ left; exact E | right; exact (IH _ H) ].
Qed.

Lemma replace_whitespace_from_tag_free (s : js_string) :
  forall in_run : bool,
    tag_free s -> tag_free (replace_whitespace_from in_run s).
Proof.
  induction s as [ | c r IH]; intros in_run; [ exact (fun H => H) | ].
  intros [Hc Hr]. simpl. destruct (is_whitespace c) eqn:Hws.
  - destruct in_run; [ apply IH; exact Hr | ].
    split; [ discriminate | apply IH; exact Hr ].
  - split; [ | apply IH; exact Hr ].
    intros E. destruct (Hc E) as [Hhead | Hnone].
    + left. destruct r as [ | d r']; [ discriminate | ].
      injection Hhead as ->. reflexivity.
    + right. intros Hin. apply In_GT_replace_whitespace_from in Hin.
      exact (Hnone Hin).
Qed.

Lemma trim_tag_free (s : js_string) : tag_free s -> tag_free (trim s).
Proof.
  intros H. unfold trim.
  destruct (trimStart_suffix s) as [d1 E1].
  destruct (trimEnd_prefix (trimStart s)) as [d2 E2].
  apply tag_free_prefix with (t := d2). rewrite <- E2.
  apply tag_free_suffix with (s := d1). rewrite <- E1. exact H.
Qed.

Lemma stripHtml_tag_free (html : js_string) : tag_free (stripHtml html).
Proof.
  unfold stripHtml. cbv zeta. apply trim_tag_free.
  apply replace_whitespace_from_tag_free.
  apply replace_tags_from_tag_free.
Qed.

End Tags.

(** X4.  No tag is left in what stripHtml returns, nor in the page text
    fetchPageText cuts from it: replacing tags once more changes nothing. *)
Theorem stripHtml_leaves_no_tag :
  (forall html : js_string,
      Backend.replace_tags (Backend.stripHtml html) = Backend.stripHtml html)
  /\ (forall fetched : Backend.fetch_outcome,
         Backend.replace_tags (Backend.fetchPageText fetched)
         = Backend.fetchPageText fetched).
Proof.
  split.
  - intros html. apply replace_tags_of_tag_free. apply stripHtml_tag_free.
  - intros [ | [ | ] [html | ]]; try reflexivity.
    apply replace_tags_of_tag_free. unfold Backend.fetchPageText, slice0.
    apply tag_free_prefix
      with (t := skipn MAX_TEXT_LENGTH (Backend.stripHtml html)).
    rewrite firstn_skipn. apply stripHtml_tag_free.
Qed.

Section Normal.

Import Backend Shape.

Lemma canonicalize_sign (c p : code_unit) :
  (p < 65)%N -> canonicalize c = p -> c = p.
Proof.
  unfold canonicalize. intros Hp.
  destruct (N.leb_spec 97 c), (N.leb_spec c 122); cbn [andb]; lia.
Qed.

Lemma starts_with_ci_head (p : code_unit) (pat s : js_string) :
  (p < 65)%N -> starts_with_ci (p :: pat) s = true ->
  exists r, s = p :: r /\ starts_with_ci pat r = true.
Proof.
  intros Hp H. destruct s as [ | c r]; [ discriminate | ].
  simpl in H. apply andb_true_iff in H. destruct H as [Hc Hr].
  apply N.eqb_eq in Hc. exists r. split; [ | exact Hr ].
  f_equal. apply canonicalize_sign; [ exact Hp | ].
  rewrite <- Hc. unfold canonicalize.
  destruct (N.leb_spec 97 p), (N.leb_spec p 122); cbn [andb];
    try reflexivity; lia.
Qed.

Lemma replace_blocks_without_LT (opening closing s : js_string) :
  ~ In LT_SIGN s ->
  replace_blocks (LT_SIGN :: opening) closing s = s.
Proof.
  unfold replace_blocks. induction s as [ | c r IH]; [ reflexivity | ].
  intros H. cbn [replace_blocks_from].
  destruct (starts_with_ci (LT_SIGN :: opening) (c :: r)) eqn:E.
  - apply starts_with_ci_head in E; [ | reflexivity ].
    destruct E as [r' [E _]]. injection E as -> _.
    exfalso. apply H. left. reflexivity.
  - f_equal. apply IH. intros Hin. apply H. right. exact Hin.
Qed.

Lemma replace_tags_without_LT (s : js_string) :
  ~ In LT_SIGN s -> replace_tags s = s.
Proof.
  unfold replace_tags. induction s as [ | c r IH]; [ reflexivity | ].
  intros H. cbn [replace_tags_from].
  destruct (N.eqb_spec c LT_SIGN) as [-> | _].
  - exfalso. apply H. left. reflexivity.
  - cbn [andb]. f_equal. apply IH. intros Hin. apply H. right. exact Hin.
Qed.

Lemma replace_whitespace_from_spaces_only (s : js_string) :
  forall in_run : bool, spaces_only (replace_whitespace_from in_run s).
Proof.
  induction s as [ | c r IH]; intros in_run d Hin Hd; [ destruct Hin | ].
  simpl in Hin. destruct (is_whitespace c) eqn:Hc.
  - destruct in_run; [ exact (IH _ d Hin Hd) | ].
    destruct Hin as [E | Hin]; [ symmetry; exact E | exact (IH _ d Hin Hd) ].
  - destruct Hin as [E | Hin]; [ congruence | exact (IH _ d Hin Hd) ].
Qed.

Lemma spaces_only_app_l (s t : js_string) :
  spaces_only (s ++ t) -> spaces_only s.
Proof. intros H c Hin. apply H. apply in_or_app. left. exact Hin. Qed.

Lemma spaces_only_app_r (s t : js_string) :
  spaces_only (s ++ t) -> spaces_only t.
Proof. intros H c Hin. apply H. apply in_or_app. right. exact Hin. Qed.

Lemma trim_spaces_only (s : js_string) :
  spaces_only s -> spaces_only (trim s).
Proof.
  intros H. unfold trim.
  destruct (trimStart_suffix s) as [d1 E1].
  destruct (trimEnd_prefix (trimStart s)) as [d2 E2].
  apply spaces_only_app_l with (t := d2). rewrite <- E2.
  apply spaces_only_app_r with (s := d1). rewrite <- E1. exact H.
Qed.

Lemma trim_no_adjacent_whitespace (s : js_string) :
  Spec.no_adjacent_whitespace s -> Spec.no_adjacent_whitespace (trim s).
Proof.
  intros H. unfold trim.
  destruct (trimStart_suffix s) as [d1 E1].
  destruct (trimEnd_prefix (trimStart s)) as [d2 E2].
  apply no_adjacent_whitespace_app_l with (t := d2). rewrite <- E2.
  apply no_adjacent_whitespace_app_r with (s := d1). rewrite <- E1. exact H.
Qed.

Lemma trim_replace_whitespace_normal (s : js_string) :
  normal (trim (replace_whitespace s)).
Proof.
  split; [ | split; [ | split ] ].
  - apply trim_spaces_only. apply replace_whitespace_from_spaces_only.
  - apply trim_no_adjacent_whitespace.
    apply (replace_whitespace_from_shape s false).
  - apply trim_starts.
  - apply trimEnd_ends.
Qed.

Lemma replace_whitespace_from_of_normal (s : js_string) :
  forall in_run : bool,
    spaces_only s -> Spec.no_adjacent_whitespace s ->
    (in_run = true -> Spec.starts_with_whitespace s = false) ->
    replace_whitespace_from in_run s = s.
Proof.
  induction s as [ | c r IH]; intros in_run Hsp Hadj Hrun; [ reflexivity | ].
  assert (Hr : Spec.no_adjacent_whitespace r)
    by exact (@no_adjacent_whitespace_app_r [c] r Hadj).
  assert (Hspr : spaces_only r) by exact (@spaces_only_app_r [c] r Hsp).
  simpl. destruct (is_whitespace c) eqn:Hc.
  - destruct in_run; [ specialize (Hrun eq_refl); simpl in Hrun; congruence | ].
    rewrite (Hsp c (or_introl eq_refl) Hc). f_equal.
    apply IH; try assumption. intros _.
    destruct r as [ | d r']; [ reflexivity | ]. simpl.
    destruct (is_whitespace d) eqn:Hd; [ | reflexivity ].
    exfalso. exact (Hadj [] r' c d eq_refl Hc Hd).
  - f_equal. apply IH; try assumption. discriminate.
Qed.

Lemma trim_of_normal (s : js_string) :
  Spec.starts_with_whitespace s = false ->
  Spec.ends_with_whitespace s = false -> trim s = s.
Proof.
  intros Hs He.
  assert (Hstart : forall t, Spec.starts_with_whitespace t = false ->
                             trimStart t = t).
  { intros [ | c r] H; [ reflexivity | ]. simpl in *. now rewrite H. }
  unfold trim, trimEnd. rewrite (Hstart s Hs), (Hstart (rev s) He).
  apply rev_involutive.
Qed.

End Normal.

(** X5.  Text without an opening sign goes through stripHtml untouched but
    for the whitespace: no script, style or tag pattern can start. *)
Theorem stripHtml_of_plain_text :
  forall text : js_string,
    ~ In Backend.LT_SIGN text ->
    Backend.stripHtml text = trim (replace_whitespace text).
Proof.
  intros text H. unfold Backend.stripHtml. cbv zeta.
  change (lit "<script") with (Backend.LT_SIGN :: lit "script").
  change (lit "<style") with (Backend.LT_SIGN :: lit "style").
  rewrite (@replace_blocks_without_LT (lit "script") (lit "</script>")
             text H).
  rewrite (@replace_blocks_without_LT (lit "style") (lit "</style>")
             text H).
  rewrite (@replace_tags_without_LT text H). reflexivity.
Qed.

(** X6.  The collected page text is one line: every whitespace code unit in
    it is the plain space (tabs, line breaks and the other space characters
    of the page are gone). *)
Theorem collectPageText_spaces_only :
  forall innerText : option js_string,
    Shape.spaces_only (collectPageText innerText).
Proof.
  intros innerText. unfold collectPageText, slice0. cbv zeta.
  set (t := trim _).
  apply spaces_only_app_l with (t := skipn MAX_TEXT_LENGTH t).
  rewrite firstn_skipn. apply trim_replace_whitespace_normal.
Qed.

Section Idempotent.

Import Backend Shape.

Lemma starts_with_ci_In_GT (pat u : js_string) :
  starts_with_ci (pat ++ [GT_SIGN]) u = true -> In GT_SIGN u.
Proof.
  revert u. induction pat as [ | p pat IH]; intros [ | c r] H;
    try discriminate; cbn [starts_with_ci app] in H;
    apply andb_true_iff in H; destruct H as [Hc Hr].
  - left. apply N.eqb_eq in Hc.
    apply canonicalize_sign; [ reflexivity | ]. symmetry. exact Hc.
  - right. exact (IH r Hr).
Qed.

Lemma find_ci_In_GT (closing : js_string) :
  (forall u, starts_with_ci closing u = true -> In GT_SIGN u) ->
  forall (t : js_string) (k : nat),
    find_ci closing t = Some k -> In GT_SIGN t.
Proof.
  intros Hclosing. induction t as [ | c r IH]; intros k H; simpl in H.
  - destruct (starts_with_ci closing []) eqn:E; [ | discriminate ].
    exact (Hclosing _ E).
  - destruct (starts_with_ci closing (c :: r)) eqn:E;
      [ exact (Hclosing _ E) | ].
    destruct (find_ci closing r) as [k' | ] eqn:F; [ | discriminate ].
    right. exact (IH k' eq_refl).
Qed.

Lemma In_skipn (n : nat) (x : code_unit) (l : js_string) :
  In x (skipn n l) -> In x l.
Proof.
  intros H. rewrite <- (firstn_skipn n l). apply in_or_app. right. exact H.
Qed.

Lemma replace_blocks_of_tag_free (o1 : code_unit)
  (opening closing s : js_string) :
  canonicalize o1 <> GT_SIGN ->
  (forall u, starts_with_ci closing u = true -> In GT_SIGN u) ->
  tag_free s ->
  replace_blocks (LT_SIGN :: o1 :: opening) closing s = s.
Proof.
  intros Ho Hclosing. unfold replace_blocks.
  induction s as [ | c r IH]; [ reflexivity | ].
  intros [Hc Hr]. cbn [replace_blocks_from].
  destruct (starts_with_ci (LT_SIGN :: o1 :: opening) (c :: r)) eqn:E;
    [ | f_equal; exact (IH Hr) ].
  destruct (find_ci closing
              (skipn (List.length (LT_SIGN :: o1 :: opening)) (c :: r)))
    as [k | ] eqn:F; [ exfalso | f_equal; exact (IH Hr) ].
  apply find_ci_In_GT in F; [ | exact Hclosing ]. apply In_skipn in F.
  apply starts_with_ci_head in E; [ | reflexivity ].
  destruct E as [r0 [E E']]. injection E as -> ->.
  destruct F as [F | F]; [ discriminate | ].
  destruct (Hc eq_refl) as [Hhead | Hnone]; [ | exact (Hnone F) ].
  destruct r0 as [ | d r']; [ discriminate | ]. injection Hhead as ->.
  cbn [starts_with_ci] in E'. apply andb_true_iff in E'.
  destruct E' as [E' _]. apply N.eqb_eq in E'. apply Ho. exact E'.
Qed.

End Idempotent.

(** X7.  stripHtml is idempotent: its result has no block, no tag and no
    whitespace left to rewrite, so stripping it again returns it as it
    is. *)
Theorem stripHtml_idempotent :
  forall html : js_string,
    Backend.stripHtml (Backend.stripHtml html) = Backend.stripHtml html.
Proof.
  intros html.
  pose proof (stripHtml_tag_free html) as Hfree.
  assert (Hnormal : Shape.normal (Backend.stripHtml html))
    by apply trim_replace_whitespace_normal.
  set (t := Backend.stripHtml html) in *.
  assert (Hscript : Backend.replace_blocks (lit "<script") (lit "</script>") t
                    = t).
  { apply (@replace_blocks_of_tag_free 115%N (lit "cript")
             (lit "</script" ++ [Backend.GT_SIGN]) t);
      [ discriminate | apply starts_with_ci_In_GT | exact Hfree ]. }
  assert (Hstyle : Backend.replace_blocks (lit "<style") (lit "</style>") t
                   = t).
  { apply (@replace_blocks_of_tag_free 115%N (lit "tyle")
             (lit "</style" ++ [Backend.GT_SIGN]) t);
      [ discriminate | apply starts_with_ci_In_GT | exact Hfree ]. }
  unfold Backend.stripHtml. cbv zeta. rewrite Hscript, Hstyle.
  rewrite (replace_tags_of_tag_free t Hfree).
  destruct Hnormal as [Hsp [Hadj [Hs He]]].
  unfold replace_whitespace.
  rewrite (@replace_whitespace_from_of_normal t false Hsp Hadj)
    by discriminate.
  apply trim_of_normal; assumption.
Qed.

(** ** The widget: the code input and the names it shows *)

Lemma filter_of_all (f : code_unit -> bool) (s : js_string) :
  (forall c, In c s -> f c = true) -> filter f s = s.
Proof.
  induction s as [ | c r IH]; intros H; [ reflexivity | ].
  simpl. rewrite (H c (or_introl eq_refl)). f_equal.
  apply IH. intros d Hd. apply H. right. exact Hd.
Qed.

(** X16.  Whatever is typed or pasted into the code input, authOtp holds
    digits only and at most 8 of them; a code of up to 8 digits is kept as
    typed; and the Verify button is enabled only with 6 to 8 digits and no
    request running. *)
Theorem otp_onChange_keeps_digits :
  forall value : js_string,
    let authOtp := View.otp_onChange value in
    (forall c, In c authOtp -> View.is_digit c = true)
    /\ (List.length authOtp <= 8)%nat
    /\ ((forall c, In c value -> View.is_digit c = true) ->
        (List.length value <= 8)%nat -> authOtp = value)
    /\ (forall authLoading : bool,
           View.verify_disabled authLoading authOtp = false ->
           authLoading = false /\ (6 <= List.length authOtp <= 8)%nat).
Proof.
  intros value. cbv zeta. unfold View.otp_onChange, slice0.
  assert (Hlen : (List.length (firstn 8 (filter View.is_digit value)) <= 8)%nat)
    by apply firstn_le_length.
  split; [ | split; [ exact Hlen | split ] ].
  - intros c Hc.
    assert (Hin : In c (filter View.is_digit value)).
    { rewrite <- (firstn_skipn 8 (filter View.is_digit value)).
      apply in_or_app. left. exact Hc. }
    apply filter_In in Hin. apply Hin.
  - intros Hdigits Hshort. rewrite (filter_of_all _ _ Hdigits).
    apply firstn_all2. exact Hshort.
  - intros authLoading H. unfold View.verify_disabled in H.
    apply orb_false_iff in H. destruct H as [Hl Hn].
    apply Nat.ltb_ge in Hn. auto.
Qed.

Lemma otp_onChange_keeps_digits_witness :
  View.otp_onChange (lit "12 34-56x789") = lit "12345678"
  /\ View.otp_onChange (lit "123456") = lit "123456"
  /\ (false = false
      /\ (6 <= List.length (View.otp_onChange (lit "123456")) <= 8)%nat).
Proof.
  split; [ vm_compute; reflexivity | ]. split.
  - apply (otp_onChange_keeps_digits (lit "123456")).
    + intros c Hc. vm_compute in Hc.
      repeat (destruct Hc as [<- | Hc]; [ reflexivity | ]). destruct Hc.
    + vm_compute. repeat constructor.
  - apply (otp_onChange_keeps_digits (lit "123456")). reflexivity.
Defined.

Lemma before_at_without_at (s : js_string) :
  ~ In View.AT_SIGN (View.before_at s).
Proof.
  induction s as [ | c r IH]; [ intros [] | ].
  simpl. destruct (N.eqb_spec c View.AT_SIGN) as [-> | Hc]; [ intros [] | ].
  intros [E | H]; [ congruence | exact (IH H) ].
Qed.

Lemma or_else_not_empty (a : option js_string) (b : js_string) :
  b <> [] -> View.or_else a b <> [].
Proof. destruct a as [[ | c r] | ]; simpl; auto; discriminate. Qed.

Lemma or_else_without_at (a : option js_string) (b : js_string) :
  (forall s, a = Some s -> ~ In View.AT_SIGN s) ->
  ~ In View.AT_SIGN b -> ~ In View.AT_SIGN (View.or_else a b).
Proof.
  intros Ha Hb. destruct a as [[ | c r] | ]; simpl; auto.
  exact (Ha _ eq_refl).
Qed.

(** X17.  The name shown for a leaderboard entry, and the one the popup
    shows for the user, is never empty; and when there is no username (or
    full name) it has no at sign: of the email only the part before it is
    shown. *)
Theorem shown_names_not_empty_and_without_domain :
  forall name email : option js_string,
    View.entry_name name email <> []
    /\ View.user_name name email <> []
    /\ ((name = None \/ name = Some []) ->
        ~ In View.AT_SIGN (View.entry_name name email)
        /\ ~ In View.AT_SIGN (View.user_name name email)).
Proof.
  intros name email.
  assert (Hemail : forall s, option_map View.before_at email = Some s ->
                             ~ In View.AT_SIGN s).
  { destruct email as [e | ]; [ | discriminate ].
    intros s [= <-]. apply before_at_without_at. }
  split; [ | split ].
  - unfold View.entry_name. repeat apply or_else_not_empty. discriminate.
  - unfold View.user_name. repeat apply or_else_not_empty. discriminate.
  - intros Hname.
    assert (E : forall b, View.or_else name b = b)
      by (destruct Hname as [-> | ->]; reflexivity).
    unfold View.entry_name, View.user_name. rewrite !E. split;
      apply or_else_without_at; try exact Hemail; vm_compute;
      intros H; repeat (destruct H as [H | H]; [ discriminate | ]);
      exact H.
Qed.

Lemma shown_names_not_empty_and_without_domain_witness :
  View.entry_name None (Some (lit "ada@example.org")) = lit "ada"
  /\ ~ In View.AT_SIGN (View.entry_name None (Some (lit "ada@example.org")))
  /\ ~ In View.AT_SIGN (View.user_name None (Some (lit "ada@example.org"))).
Proof.
  split; [ vm_compute; reflexivity | ].
  apply (shown_names_not_empty_and_without_domain None
           (Some (lit "ada@example.org"))).
  left. reflexivity.
Defined.

(** ** The widget: what a question and a result are made of *)

(** X11.  The question on the card always comes from the payload, has
    exactly 4 options, and its index is below the total. *)
Theorem currentQuestion_well_formed :
  forall (w : Widget) (item : QuizItem),
    currentQuestion w = Some item ->
    List.length (options item) = 4%nat
    /\ (0 <= questionIndex w < totalQuestions w)%Z
    /\ exists q : QuizPayload, quiz w = Some q /\ In item (questions q).
Proof.
  intros w item H. unfold currentQuestion, totalQuestions, quizData in *.
  destruct (isQuizPayload (quiz w)) eqn:Hvalid; [ | discriminate ].
  destruct (quiz w) as [q | ] eqn:Hq; [ | discriminate ].
  destruct (Z.ltb_spec (questionIndex w) 0) as [Hneg | Hpos];
    [ discriminate | ].
  simpl in Hvalid. apply andb_true_iff in Hvalid.
  destruct Hvalid as [_ Hall]. rewrite forallb_forall in Hall.
  pose proof (nth_error_In _ _ H) as Hin. split; [ | split ].
  - apply Nat.eqb_eq. exact (Hall item Hin).
  - assert (Hlt : (Z.to_nat (questionIndex w) < List.length (questions q))%nat)
      by (apply nth_error_Some; congruence).
    lia.
  - exists q. auto.
Qed.

Lemma currentQuestion_well_formed_witness :
  List.length (options {| question := lit "q"; options := four_options;
                          correctIndex := of_Z 0 |}) = 4%nat
  /\ (0 <= questionIndex (widget finished_unauthenticated)
      < totalQuestions (widget finished_unauthenticated))%Z
  /\ exists q : QuizPayload,
       quiz (widget finished_unauthenticated) = Some q
       /\ In {| question := lit "q"; options := four_options;
                correctIndex := of_Z 0 |} (questions q).
Proof.
  apply (@currentQuestion_well_formed (widget finished_unauthenticated)).
  vm_compute. reflexivity.
Defined.

(** X12.  In every state the total is at least 1, so the percentage handed
    to saveQuizResult is an integer, never NaN or Infinity. *)
Theorem saved_percentage_is_an_integer :
  forall (w : Widget) (finalCorrect : Z),
    (1 <= totalQuestions w)%Z
    /\ exists z : Z, percentage_of finalCorrect (totalQuestions w) = of_Z z.
Proof.
  intros w finalCorrect.
  assert (Htotal : (1 <= totalQuestions w)%Z).
  { unfold totalQuestions, quizData.
    destruct (isQuizPayload (quiz w)) eqn:Hvalid;
      [ | unfold TOTAL_QUESTIONS; lia ].
    destruct (quiz w) as [q | ]; [ | discriminate ].
    simpl in Hvalid. apply andb_true_iff in Hvalid.
    destruct Hvalid as [Hlen _]. apply Nat.ltb_lt in Hlen. lia. }
  split; [ exact Htotal | ].
  unfold percentage_of. unfold of_Z at 1.
  rewrite div_by_nonzero by lia. unfold mul, of_Z at 1, Math_round.
  eexists. reflexivity.
Qed.

(** ** The widget: runs of events *)

Section Runs.

Import Trace.

Local Opaque collectPageText.

Ltac split_matches :=
  repeat match goal with
         | |- context [match ?x with _ => _ end] => destruct x eqn:?
         end.

Lemma run_effects_of_rendered (s : System) : rendered s -> run_effects s = s.
Proof.
  unfold rendered, run_effects. intros ->. now rewrite pending_eqb_refl.
Qed.

Lemma dispatch_rendered (s : System) (e : event) : rendered (dispatch s e).
Proof. apply run_effects_listener. Qed.

Lemma run_cons (s : System) (e : event) (events : list event) :
  run s (e :: events) = run (dispatch s e) events.
Proof. reflexivity. Qed.

Lemma run_app (s : System) (l1 l2 : list event) :
  run s (l1 ++ l2) = run (run s l1) l2.
Proof. apply fold_left_app. Qed.

Lemma run_rendered (events : list event) :
  forall s : System, rendered s -> rendered (run s events).
Proof.
  induction events as [ | e events IH]; intros s H; [ exact H | ].
  rewrite run_cons. apply IH. apply dispatch_rendered.
Qed.

(** What the render after an event leaves alone. *)
Lemma run_effects_cells (s : System) :
  world (run_effects s) = world s
  /\ status (widget (run_effects s)) = status (widget s)
  /\ isComplete (widget (run_effects s)) = isComplete (widget s)
  /\ correctCount (widget (run_effects s)) = correctCount (widget s)
  /\ pendingResult (widget (run_effects s)) = pendingResult (widget s).
Proof. unfold run_effects. destruct (pending_eqb _ _); simpl; auto. Qed.


Lemma handle_while_loading (s : System) (e : event) :
  status (widget s) = loading -> not_reply e ->
  status (widget (handle e s)) = loading
  /\ sent_messages (world (handle e s)) = sent_messages (world s).
Proof.
  intros H He. destruct e; try contradiction; simpl.
  - unfold openWidget. rewrite H. simpl. auto.
  - auto.
  - destruct (_ && _); simpl; auto.
  - destruct (_ && _); [ | auto ].
    unfold handleNext, saveQuizResult. split_matches; simpl; auto.
  - rewrite H. destruct (isOpen (widget s)); auto.
  - unfold onAuthStateChange, authListener.
    split_matches; simpl; auto.
  - unfold flushSettled, authListener_resumed, saveQuizResult.
    split_matches; simpl; auto.
Qed.


End Runs.



(** X14.  While a quiz request is in flight (status loading), no event but
    its reply sends another request or takes the widget out of loading:
    not opening or closing the widget, not a click, not a sign-in. *)
Theorem no_second_request_while_loading :
  forall (s : System) (events : list event),
    status (widget s) = loading ->
    Forall Trace.not_reply events ->
    status (widget (run s events)) = loading
    /\ sent_messages (world (run s events)) = sent_messages (world s).
Proof.
  intros s events Hs Hall. revert s Hs.
  induction Hall as [ | e events He _ IH]; intros s Hs; [ auto | ].
  rewrite run_cons.
  destruct (handle_while_loading s e Hs He) as [H1 H2].
  destruct (run_effects_cells (handle e s)) as [Hw [Hst _]].
  unfold dispatch in *.
  destruct (IH (run_effects (handle e s))) as [H3 H4];
    [ congruence | ].
  split; [ exact H3 | ]. rewrite H4, Hw. exact H2.
Qed.

Lemma no_second_request_while_loading_witness :
  status (widget (run (mount example_page)
                    [ClickFab; ClickOption 0; ClickPrimary None; ClickClose;
                     AuthStateChange (Some example_session);
                     FlushSettled 0 None; ClickFab]))
  = loading
  /\ sent_messages (world (run (mount example_page)
                             [ClickFab; ClickOption 0; ClickPrimary None;
                              ClickClose;
                              AuthStateChange (Some example_session);
                              FlushSettled 0 None; ClickFab]))
     = sent_messages (world (mount example_page)).
Proof.
  apply no_second_request_while_loading.
  - reflexivity.
  - repeat constructor.
Defined.



Section Requests.

Import Trace.

Lemma collectPageText_length (innerText : option js_string) :
  (List.length (collectPageText innerText) <= MAX_TEXT_LENGTH)%nat.
Proof. unfold collectPageText. apply firstn_le_length. Qed.

Local Opaque collectPageText.

Ltac split_matches :=
  repeat match goal with
         | |- context [match ?x with _ => _ end] => destruct x eqn:?
         end.

Lemma same_page_refl (x : World) : same_page x x.
Proof. repeat split. Qed.

Lemma same_page_trans (x y z : World) :
  same_page x y -> same_page y z -> same_page x z.
Proof.
  intros [A [B C]] [A' [B' C']]. repeat split; congruence.
Qed.

Lemma handle_requests (e : event) (s : System) :
  same_page (world s) (world (handle e s))
  /\ (sent_messages (world (handle e s)) = sent_messages (world s)
      \/ sent_messages (world (handle e s))
         = sent_messages (world s) ++ [request_of s]).
Proof.
  destruct e as [ | | i | ins | | r | notified | k ins]; simpl.
  - unfold openWidget. split_matches; simpl; repeat split; auto.
  - repeat split; auto.
  - destruct (_ && _); simpl; repeat split; auto.
  - destruct (_ && _); [ | repeat split; auto ].
    unfold handleNext, saveQuizResult.
    split_matches; simpl; repeat split; auto.
  - split_matches; simpl; repeat split; auto.
  - unfold requestQuiz_settled. split_matches; simpl; repeat split; auto.
  - unfold onAuthStateChange, authListener.
    split_matches; simpl; repeat split; auto.
  - unfold flushSettled, authListener_resumed, saveQuizResult.
    split_matches; simpl; repeat split; auto.
Qed.

Lemma request_of_for (x : World) (s : System) :
  same_page x (world s) -> request_for x (request_of s).
Proof.
  intros [A [B C]]. unfold request_for, request_of. simpl.
  rewrite A, B, C. repeat split.
Qed.

End Requests.

(** X15.  Every quiz request the widget ever sends, from its first render
    on and whatever happens, is for the page it sits on: the page's url and
    title, its collected text of at most 9000 code units, and count 5. *)
Theorem every_request_is_for_the_page :
  forall (x : World) (events : list event),
  exists requests : list QuizRequest,
    sent_messages (world (run (mount x) events))
    = sent_messages x ++ requests
    /\ requests <> []
    /\ Forall (fun r => Trace.request_for x r
                        /\ (List.length (request_text r) <= 9000)%nat)
         requests.
Proof.
  intros x events.
  assert (Hok : forall s, Trace.same_page x (world s) ->
                Trace.request_for x (request_of s)
                /\ (List.length (request_text (request_of s)) <= 9000)%nat).
  { intros s Hs. split; [ apply request_of_for; exact Hs | ].
    apply collectPageText_length. }
  assert (Hgen : forall s,
             Trace.same_page x (world s) ->
             (exists requests,
                 sent_messages (world s) = sent_messages x ++ requests
                 /\ requests <> []
                 /\ Forall (fun r => Trace.request_for x r
                                     /\ (List.length (request_text r)
                                         <= 9000)%nat) requests) ->
             exists requests,
               sent_messages (world (run s events))
               = sent_messages x ++ requests
               /\ requests <> []
               /\ Forall (fun r => Trace.request_for x r
                                   /\ (List.length (request_text r)
                                       <= 9000)%nat) requests).
  { induction events as [ | e events IH]; intros s Hpage Hs; [ exact Hs | ].
    rewrite run_cons. unfold dispatch.
    destruct (handle_requests e s) as [Hp Hsent].
    destruct (run_effects_cells (handle e s)) as [Hw _].
    destruct Hs as [requests [E [Hne Hall]]].
    apply IH.
    - rewrite Hw. exact (same_page_trans Hpage Hp).
    - rewrite Hw. destruct Hsent as [-> | ->].
      + exists requests. auto.
      + exists (requests ++ [request_of s]). split; [ | split ].
        * rewrite E. symmetry. apply app_assoc.
        * destruct requests; discriminate.
        * apply Forall_app. split; [ exact Hall | ].
          constructor; [ exact (Hok s Hpage) | constructor ]. }
  apply Hgen.
  - repeat split.
  - exists [request_of {| widget := widget (mount x); world := x;
                          listener_pendingResult := None;
                          flushes := [] |}].
    split; [ reflexivity | ]. split; [ discriminate | ].
    constructor; [ | constructor ].
    apply Hok. repeat split.
Qed.




(** ** The widget: a whole round of answers *)

Section Round.

Import Trace.

Variable q : QuizPayload.
Variable s : System.
Hypothesis Hplaying : playing q s.
Variable insert_error : option js_string.

Let n : Z := Z.of_nat (List.length (questions q)).

Local Opaque strict_eq percentage_of.

Lemma derived_at_progress (selected : option Z) (shown complete : bool)
  (index count : Z) :
  (0 <= index)%Z ->
  let w := widget (at_progress s selected shown index count complete) in
  currentQuestion w = nth_error (questions q) (Z.to_nat index)
  /\ totalQuestions w = n
  /\ isOpen w = true
  /\ showLoading w = false.
Proof.
  destruct Hplaying as [Hq [Hvalid [Hopen [Hready _]]]].
  intros Hindex. cbv zeta.
  unfold currentQuestion, totalQuestions, quizData, showLoading,
    at_progress.
  simpl. rewrite Hq, Hvalid, Hopen, Hready.
  destruct (Z.ltb_spec index 0); [ lia | ]. repeat split.
Qed.

Lemma run_effects_at_progress (selected : option Z) (shown complete : bool)
  (index count : Z) :
  run_effects (at_progress s selected shown index count complete)
  = at_progress s selected shown index count complete.
Proof.
  apply run_effects_of_rendered. destruct Hplaying as [_ [_ [_ [_ Hr]]]].
  exact Hr.
Qed.

Lemma select_option (item : QuizItem) (selected : option Z)
  (index count answer : Z) :
  (0 <= index)%Z ->
  nth_error (questions q) (Z.to_nat index) = Some item ->
  dispatch (at_progress s selected false index count false)
    (ClickOption answer)
  = at_progress s (Some answer) false index count false.
Proof.
  intros Hindex Hitem.
  destruct (derived_at_progress selected false false count Hindex)
    as [Hc [_ [Ho Hl]]].
  unfold dispatch, handle, question_shown, hasResult.
  rewrite Hc, Hitem, Ho, Hl. simpl.
  apply run_effects_at_progress.
Qed.

Lemma submit_answer (item : QuizItem) (index count answer : Z) :
  (0 <= index)%Z ->
  nth_error (questions q) (Z.to_nat index) = Some item ->
  dispatch (at_progress s (Some answer) false index count false)
    (ClickPrimary insert_error)
  = at_progress s (Some answer) true index
      (count + (if is_correct item answer then 1 else 0)) false.
Proof.
  intros Hindex Hitem.
  destruct (derived_at_progress (Some answer) false false count Hindex)
    as [Hc [_ [Ho Hl]]].
  unfold dispatch, handle, question_shown, canAdvance, handleNext.
  rewrite Hc, Hitem, Ho, Hl. simpl.
  unfold is_correct. destruct (strict_eq (of_Z answer) (correctIndex item)).
  - apply run_effects_at_progress.
  - rewrite Z.add_0_r. apply run_effects_at_progress.
Qed.

Lemma next_question (item : QuizItem) (index count answer : Z) :
  (0 <= index < n - 1)%Z ->
  nth_error (questions q) (Z.to_nat index) = Some item ->
  dispatch (at_progress s (Some answer) true index count false)
    (ClickPrimary insert_error)
  = at_progress s None false (index + 1) count false.
Proof.
  intros Hindex Hitem.
  destruct (derived_at_progress (Some answer) true false count
              (proj1 Hindex)) as [Hc [Ht [Ho Hl]]].
  unfold dispatch, handle, question_shown, canAdvance, handleNext,
    isLastQuestion.
  rewrite Hc, Ht, Hitem, Ho, Hl. simpl.
  destruct (Z.leb_spec (n - 1) index); [ lia | ]. simpl.
  apply run_effects_at_progress.
Qed.

Lemma finish_quiz (item : QuizItem) (index count answer : Z) :
  (0 <= index)%Z -> (n - 1 <= index)%Z ->
  nth_error (questions q) (Z.to_nat index) = Some item ->
  dispatch (at_progress s (Some answer) true index count false)
    (ClickPrimary insert_error)
  = run_effects
      (fst (saveQuizResult insert_error
              (count + (if is_correct item answer then 1 else 0)) n
              (percentage_of
                 (count + (if is_correct item answer then 1 else 0)) n)
              (at_progress s (Some answer) true index count true))).
Proof.
  intros Hindex Hlast Hitem.
  destruct (derived_at_progress (Some answer) true false count Hindex)
    as [Hc [Ht [Ho Hl]]].
  unfold dispatch, handle, question_shown, canAdvance, handleNext,
    isLastQuestion.
  rewrite Hc, Ht, Hitem, Ho, Hl. simpl.
  destruct (Z.leb_spec (n - 1) index); [ | lia ]. simpl.
  unfold is_correct. destruct (strict_eq (of_Z answer) (correctIndex item));
    [ reflexivity | ].
  rewrite Z.add_0_r. reflexivity.
Qed.

End Round.

Lemma skipn_cons_nth (A : Type) (k : nat) :
  forall (l r : list A) (x : A),
    skipn k l = x :: r ->
    nth_error l k = Some x /\ skipn (S k) l = r
    /\ List.length l = (k + 1 + List.length r)%nat.
Proof.
  induction k as [ | k IH]; intros l r x H.
  - destruct l as [ | y l]; [ discriminate | ].
    simpl in H. injection H as -> ->. simpl.
    split; [ reflexivity | ]. split; [ reflexivity | ]. lia.
  - destruct l as [ | y l]; [ discriminate | ].
    destruct (IH l r x H) as [H1 [H2 H3]].
    split; [ exact H1 | ]. split; [ exact H2 | ]. simpl. lia.
Qed.

Lemma round_from (q : QuizPayload) (s : System)
  (insert_error : option js_string) :
  Trace.playing q s ->
  forall (items : list QuizItem) (answers : list Z) (index count : Z)
         (selected : option Z),
    (0 <= index)%Z ->
    skipn (Z.to_nat index) (questions q) = items ->
    items <> [] ->
    List.length answers = List.length items ->
    exists selected' : option Z,
      run (Trace.at_progress s selected false index count false)
        (Trace.session_events insert_error answers)
      = run_effects
          (fst (saveQuizResult insert_error
                  (count + Trace.correct_answers items answers
                   + Trace.last_correct items answers)
                  (Z.of_nat (List.length (questions q)))
                  (percentage_of
                     (count + Trace.correct_answers items answers
                      + Trace.last_correct items answers)
                     (Z.of_nat (List.length (questions q))))
                  (Trace.at_progress s selected' true
                     (Z.of_nat (List.length (questions q)) - 1)
                     (count + Trace.correct_answers items answers) true))).
Proof.
  intros Hplaying. induction items as [ | item rest IH];
    intros answers index count selected Hindex Hskip Hne Hlen;
    [ congruence | ].
  destruct answers as [ | a answers]; [ discriminate | ].
  destruct (skipn_cons_nth _ _ Hskip) as [Hnth [Hrest Hn]].
  change (Trace.session_events insert_error (a :: answers))
    with ([ClickOption a; ClickPrimary insert_error;
           ClickPrimary insert_error]
          ++ Trace.session_events insert_error answers).
  rewrite run_app, !run_cons.
  rewrite (select_option Hplaying selected count a Hindex Hnth).
  rewrite (submit_answer Hplaying insert_error count a Hindex Hnth).
  set (b := if Trace.is_correct item a then 1%Z else 0%Z).
  destruct rest as [ | item' rest'].
  - destruct answers as [ | a' answers']; [ | discriminate ].
    assert (Hlast : (Z.of_nat (List.length (questions q)) - 1 <= index)%Z)
      by (simpl in Hn; lia).
    rewrite (finish_quiz Hplaying insert_error (count + b) a Hindex Hlast
               Hnth).
    fold b. exists (Some a). simpl Trace.correct_answers.
    simpl Trace.last_correct. fold b.
    replace (count + (b + 0))%Z with (count + b)%Z by lia.
    replace (Z.of_nat (List.length (questions q)) - 1)%Z with index
      by (simpl in Hn; lia).
    reflexivity.
  - destruct answers as [ | a' answers']; [ discriminate | ].
    assert (Hmore : (0 <= index
                          < Z.of_nat (List.length (questions q)) - 1)%Z)
      by (simpl in Hn; lia).
    rewrite (next_question Hplaying insert_error (count + b) a Hmore Hnth).
    change (run (Trace.at_progress s None false (index + 1) (count + b) false)
              [])
      with (Trace.at_progress s None false (index + 1) (count + b) false).
    destruct (IH (a' :: answers') (index + 1)%Z (count + b)%Z None)
      as [selected' E].
    + lia.
    + rewrite Z2Nat.inj_add by lia. rewrite Nat.add_1_r. exact Hrest.
    + discriminate.
    + simpl in Hlen |- *. lia.
    + exists selected'. rewrite E.
      change (Trace.correct_answers (item :: item' :: rest')
                (a :: a' :: answers'))
        with (b + Trace.correct_answers (item' :: rest') (a' :: answers'))%Z.
      change (Trace.last_correct (item :: item' :: rest')
                (a :: a' :: answers'))
        with (Trace.last_correct (item' :: rest') (a' :: answers')).
      replace (count + (b + Trace.correct_answers (item' :: rest')
                              (a' :: answers')))%Z
        with (count + b + Trace.correct_answers (item' :: rest')
                            (a' :: answers'))%Z by lia.
      reflexivity.
Qed.

(** X9.  A whole round.  On a valid payload that has arrived, opening the
    widget and answering every question in turn (option, submit, next)
    completes the quiz with correctCount equal to the number of correct
    answers, which is what the completion card shows; and what it hands to
    saveQuizResult, once, is that number plus one more when the last answer
    is correct, out of the number of questions: kept as the pending result
    without a session, inserted for the session's user with one. *)
Theorem full_round_score :
  forall (s : System) (q : QuizPayload) (insert_error : option js_string)
         (answers : list Z),
    quiz (widget s) = Some q ->
    isQuizPayload (Some q) = true ->
    status (widget s) = ready ->
    Trace.rendered s ->
    List.length answers = List.length (questions q) ->
    let final :=
      run s (ClickFab :: Trace.session_events insert_error answers) in
    let correct := Trace.correct_answers (questions q) answers in
    let saved := (correct + Trace.last_correct (questions q) answers)%Z in
    let n := Z.of_nat (List.length (questions q)) in
    isComplete (widget final) = true
    /\ correctCount (widget final) = correct
    /\ match auth_session (world s), insert_error with
       | None, _ =>
           pendingResult (widget final)
           = Some {| score := saved; total := n;
                     percentage := percentage_of saved n |}
           /\ quiz_results (world final) = quiz_results (world s)
       | Some session, None =>
           quiz_results (world final)
           = quiz_results (world s)
             ++ [row_of s session saved n (percentage_of saved n)]
       | Some _, Some _ => quiz_results (world final) = quiz_results (world s)
       end.
Proof.
  intros s q insert_error answers Hq Hvalid Hready Hr Hlen. cbv zeta.
  set (s0 := with_widget s (with_isOpen (widget s) true)).
  assert (Hplaying : Trace.playing q s0).
  { unfold Trace.playing, s0. simpl. repeat split; assumption. }
  assert (Hopen : dispatch s ClickFab
                  = Trace.at_progress s0 None false 0 0 false).
  { unfold dispatch, handle, openWidget. rewrite Hready.
    apply (@run_effects_of_rendered
             (Trace.at_progress s0 None false 0 0 false)).
    exact Hr. }
  rewrite run_cons, Hopen.
  assert (Hne : questions q <> []).
  { simpl in Hvalid. apply andb_true_iff in Hvalid.
    destruct Hvalid as [Hpos _]. apply Nat.ltb_lt in Hpos.
    destruct (questions q); [ simpl in Hpos; lia | discriminate ]. }
  destruct (@round_from q s0 insert_error Hplaying (questions q) answers
              0%Z 0%Z None (Z.le_refl 0) eq_refl Hne Hlen)
    as [selected' E].
  rewrite E. clear E. rewrite !Z.add_0_l.
  set (saving := saveQuizResult _ _ _ _ _).
  destruct (run_effects_cells (fst saving)) as [Hw [_ [Hc [Hn Hp]]]].
  rewrite Hc, Hn, Hp, Hw. unfold saving, saveQuizResult. simpl.
  destruct (auth_session (world s)) as [session | ];
    [ destruct insert_error as [e | ] | ]; simpl; repeat split.
Qed.

Lemma full_round_score_witness :
  let s :=
    run (mount example_page)
      [MessageReply (ReplyOk (Some five_questions))] in
  let final :=
    run s (ClickFab :: Trace.session_events None [0; 1; 0; 2; 0]%Z) in
  isComplete (widget final) = true
  /\ correctCount (widget final) = 3%Z
  /\ pendingResult (widget final)
     = Some {| score := 4; total := 5; percentage := of_Z 80 |}.
Proof.
  cbv zeta.
  destruct (@full_round_score
              (run (mount example_page)
                 [MessageReply (ReplyOk (Some five_questions))])
              five_questions None [0; 1; 0; 2; 0]%Z)
    as [H1 [H2 H3]]; try (vm_compute; reflexivity).
  split; [ exact H1 | ]. split; [ exact H2 | ].
  destruct H3 as [H3 _]. exact H3.
Defined.

(** ** The server: one file and routes *)

(** X8.  Splitting the server into routes kept its answers: on every
    request, but for the path "/" that the router added (and given that the
    health route answers as before), the router with handleQuiz and
    generateQuiz responds exactly as the fetch handler of the single
    file. *)
Theorem router_answers_like_single_file :
  forall (StringToNumber : js_string -> number)
         (ToPrimitive : json -> js_string)
         (fetch : js_string -> Backend.fetch_outcome)
         (generateObject : Backend.Prompt -> Backend.generation)
         (handleHealth : Backend.settled Server.HttpResponse)
         (req : Server.Request),
    str_eqb (Server.pathname req) (lit "/") = false ->
    handleHealth = Backend.Resolved Server.health ->
    Server.router StringToNumber ToPrimitive fetch generateObject
      handleHealth req
    = Server.serve StringToNumber ToPrimitive fetch generateObject req.
Proof.
  intros StringToNumber ToPrimitive fetch generateObject handleHealth req
    Hroot ->.
  unfold Server.router, Server.serve. rewrite Hroot.
  destruct (str_eqb (Server.method req) (lit "OPTIONS")); [ reflexivity | ].
  destruct (_ && _); [ | reflexivity ].
  unfold Backend.handleQuiz, Backend.generateQuiz, Backend.pageText,
    Backend.questionCount, Backend.count_or_default. cbv zeta.
  destruct (falsy _); [ reflexivity | ].
  destruct (get _ "url") as [[ | | | u | | ] | ]; try reflexivity.
  cbn [Backend.text Backend.url Backend.count Backend.title].
  destruct (get _ "text") as [[ | | | t | | ] | ];
    try destruct (0 <? List.length (trim t))%nat;
    destruct (Backend.is_empty _); try reflexivity;
    destruct (generateObject _); reflexivity.
Qed.

Lemma router_answers_like_single_file_witness :
  Server.router (fun _ => NaN) (fun _ => []) (fun _ => Backend.FetchThrows)
    (fun _ => Backend.GenerationThrows)
    (Backend.Resolved Server.health)
    {| Server.method := lit "POST"; Server.pathname := lit "/api/quiz";
       Server.parsed := Some request_with_text |}
  = Server.serve (fun _ => NaN) (fun _ => []) (fun _ => Backend.FetchThrows)
      (fun _ => Backend.GenerationThrows)
      {| Server.method := lit "POST"; Server.pathname := lit "/api/quiz";
         Server.parsed := Some request_with_text |}.
Proof.
  apply router_answers_like_single_file; reflexivity.
Defined.

(** ** From the backend's answer to the widget *)

Lemma run_effects_error_cells (s : System) :
  errorMessage (widget (run_effects s)) = errorMessage (widget s)
  /\ quiz (widget (run_effects s)) = quiz (widget s).
Proof. unfold run_effects. destruct (pending_eqb _ _); simpl; auto. Qed.

(** X18.  When the backend answers with a status outside 200..299, whatever
    the body says, the background process replies with the failure
    "Request failed: " followed by the status, and that is what the widget
    shows, in status error and with its payload untouched: the error text of
    the route itself never reaches the visitor. *)
Theorem failed_request_shows_status_only :
  forall (status_code : Z) (answer : json + Background.thrown) (s : System),
    Background.ok status_code = false ->
    let message :=
      lit "Request failed: " ++ Background.status_text status_code in
    Background.run (Background.Answer status_code answer)
    = Background.Failure message
    /\ let s' :=
         dispatch s (MessageReply (Background.failure_result message)) in
       status (widget s') = error
       /\ errorMessage (widget s') = Some message
       /\ quiz (widget s') = quiz (widget s).
Proof.
  intros status_code answer s Hok. cbv zeta. split.
  - unfold Background.run. rewrite Hok. reflexivity.
  - unfold dispatch.
    destruct (run_effects_cells
                (handle (MessageReply
                           (Background.failure_result
                              (lit "Request failed: "
                               ++ Background.status_text status_code))) s))
      as [_ [Hs _]].
    destruct (run_effects_error_cells
                (handle (MessageReply
                           (Background.failure_result
                              (lit "Request failed: "
                               ++ Background.status_text status_code))) s))
      as [He Hq].
    rewrite Hs, He, Hq. simpl. repeat split.
Qed.

Lemma failed_request_shows_status_only_witness :
  Background.run
    (Background.Answer 400 (inl (Backend.body no_page_text)))
  = Background.Failure (lit "Request failed: 400")
  /\ errorMessage
       (widget (dispatch (mount example_page)
                  (MessageReply
                     (Background.failure_result
                        (lit "Request failed: 400")))))
     = Some (lit "Request failed: 400").
Proof.
  destruct (@failed_request_shows_status_only 400%Z
              (inl (Backend.body no_page_text)) (mount example_page)
              eq_refl) as [H1 [_ [H2 _]]].
  split; [ exact H1 | exact H2 ].
Defined.

(** ** The primary button *)

(** X19.  The caption of the primary button tells what its click does:
    "Submit Answer" reveals the result and stays on the question,
    "Next Question" moves to the next one with the selection cleared and
    the count kept, and "Finish Quiz" completes the quiz. *)
Theorem primary_button_does_what_it_says :
  forall (s : System) (insert_error : option js_string),
    question_shown (widget s) = true ->
    canAdvance (widget s) = true ->
    let s' := handle (ClickPrimary insert_error) s in
    (View.primaryCtaLabel (widget s) = lit "Submit Answer" ->
     showResult (widget s') = true
     /\ questionIndex (widget s') = questionIndex (widget s)
     /\ isComplete (widget s') = false)
    /\ (View.primaryCtaLabel (widget s) = lit "Next Question" ->
        questionIndex (widget s') = (questionIndex (widget s) + 1)%Z
        /\ selectedIndex (widget s') = None
        /\ showResult (widget s') = false
        /\ correctCount (widget s') = correctCount (widget s))
    /\ (View.primaryCtaLabel (widget s) = lit "Finish Quiz" ->
        isComplete (widget s') = true
        /\ correctCount (widget s') = correctCount (widget s)).
Proof.
  intros s insert_error Hshown Hsel. cbv zeta.
  assert (Hdone : isComplete (widget s) = false).
  { unfold question_shown in Hshown. apply andb_true_iff in Hshown.
    destruct Hshown as [_ H]. now apply negb_true_iff in H. }
  assert (Hcur : exists item, currentQuestion (widget s) = Some item).
  { unfold question_shown in Hshown. apply andb_true_iff in Hshown.
    destruct Hshown as [H _]. apply andb_true_iff in H. destruct H as [_ H].
    destruct (currentQuestion (widget s)); [ eauto | discriminate ]. }
  destruct Hcur as [item Hcur].
  assert (Hsome : exists a, selectedIndex (widget s) = Some a).
  { unfold canAdvance in Hsel.
    destruct (selectedIndex (widget s)); [ eauto | discriminate ]. }
  destruct Hsome as [a Ha].
  simpl. rewrite Hshown, Hsel. simpl.
  unfold handleNext, View.primaryCtaLabel. rewrite Hcur, Ha.
  destruct (showResult (widget s)) eqn:Hres; cbn [negb];
    [ destruct (isLastQuestion (widget s)) eqn:Hlast | ]; cbn [negb].
  - split; [ discriminate | ]. split; [ discriminate | ]. intros _.
    unfold saveQuizResult. simpl.
    destruct (auth_session (world s)); [ destruct insert_error | ];
      simpl; auto.
  - split; [ discriminate | ]. split; [ | discriminate ]. intros _.
    simpl. auto.
  - split; [ | split; discriminate ]. intros _. simpl. auto.
Qed.

Lemma primary_button_does_what_it_says_witness :
  let s :=
    run (mount example_page)
      [ MessageReply (ReplyOk (Some five_questions)); ClickFab;
        ClickOption 0 ] in
  showResult (widget (handle (ClickPrimary None) s)) = true
  /\ questionIndex (widget (handle (ClickPrimary None) s))
     = questionIndex (widget s)
  /\ isComplete (widget (handle (ClickPrimary None) s)) = false.
Proof.
  cbv zeta.
  apply (@primary_button_does_what_it_says
           (run (mount example_page)
              [ MessageReply (ReplyOk (Some five_questions)); ClickFab;
                ClickOption 0 ]) None);
    vm_compute; reflexivity.
Defined.

(** ** A payload that fails isQuizPayload *)

Section DeadEnd.

Import Trace.

Local Opaque collectPageText.

Ltac split_matches :=
  repeat match goal with
         | |- context [match ?x with _ => _ end] => destruct x eqn:?
         end.

Lemma no_question_without_payload (w : Widget) :
  isQuizPayload (quiz w) = false ->
  currentQuestion w = None /\ question_shown w = false.
Proof.
  intros H. unfold question_shown, currentQuestion, quizData.
  rewrite H. split; [ reflexivity | ].
  rewrite andb_false_r. reflexivity.
Qed.

Lemma handle_without_payload (s : System) (e : event) :
  status (widget s) = ready ->
  isQuizPayload (quiz (widget s)) = false ->
  not_reply e ->
  status (widget (handle e s)) = ready
  /\ quiz (widget (handle e s)) = quiz (widget s)
  /\ sent_messages (world (handle e s)) = sent_messages (world s).
Proof.
  intros Hs Hq He.
  destruct (no_question_without_payload (widget s) Hq) as [_ Hshown].
  destruct e as [ | | i | ins | | r | notified | k ins]; try contradiction;
    simpl; rewrite ?Hshown; cbn [andb]; auto.
  - unfold openWidget. rewrite Hs. simpl. auto.
  - rewrite Hs. destruct (isOpen (widget s)); auto.
  - unfold onAuthStateChange, authListener.
    split_matches; simpl; auto.
  - unfold flushSettled, authListener_resumed, saveQuizResult.
    split_matches; simpl; auto.
Qed.

End DeadEnd.

(** X21.  A reply whose payload fails isQuizPayload is a dead end: the
    status is ready, there is no question to show, and from then on no
    click, no reopening and no sign-in sends a new request or changes the
    payload. *)
Theorem invalid_payload_is_a_dead_end :
  forall (s : System) (data : option QuizPayload) (events : list event),
    isQuizPayload data = false ->
    Forall Trace.not_reply events ->
    let s' := run (dispatch s (MessageReply (ReplyOk data))) events in
    status (widget s') = ready
    /\ currentQuestion (widget s') = None
    /\ sent_messages (world s') = sent_messages (world s).
Proof.
  intros s data events Hdata Hall. cbv zeta.
  set (s0 := dispatch s (MessageReply (ReplyOk data))).
  assert (H0 : status (widget s0) = ready
               /\ quiz (widget s0) = data
               /\ sent_messages (world s0) = sent_messages (world s)).
  { unfold s0, dispatch.
    destruct (run_effects_cells (handle (MessageReply (ReplyOk data)) s))
      as [Hw [Hs _]].
    destruct (run_effects_error_cells
                (handle (MessageReply (ReplyOk data)) s)) as [_ Hq].
    rewrite Hs, Hq, Hw. simpl. auto. }
  clearbody s0. revert s0 H0.
  induction Hall as [ | e events He _ IH]; intros s0 [Hs [Hq Hm]].
  - simpl. split; [ exact Hs | ]. split; [ | exact Hm ].
    apply no_question_without_payload. rewrite Hq. exact Hdata.
  - rewrite run_cons. apply IH. unfold dispatch.
    destruct (@handle_without_payload s0 e Hs
                ltac:(rewrite Hq; exact Hdata) He) as [H1 [H2 H3]].
    destruct (run_effects_cells (handle e s0)) as [Hw [Hst _]].
    destruct (run_effects_error_cells (handle e s0)) as [_ Hqq].
    rewrite Hst, Hqq, Hw. repeat split; congruence.
Qed.

Lemma invalid_payload_is_a_dead_end_witness :
  let s' :=
    run (dispatch (mount example_page)
           (MessageReply (ReplyOk (Some {| questions := [] |}))))
      [ClickFab; ClickOption 0; ClickPrimary None; ClickTryAgain; ClickFab]
  in
  status (widget s') = ready
  /\ currentQuestion (widget s') = None
  /\ sent_messages (world s') = sent_messages (world (mount example_page)).
Proof.
  apply (@invalid_payload_is_a_dead_end (mount example_page)
           (Some {| questions := [] |})
           [ClickFab; ClickOption 0; ClickPrimary None; ClickTryAgain;
            ClickFab]).
  - reflexivity.
  - repeat constructor.
Defined.

Lemma collected_text_reaches_the_prompt_witness :
  Backend.pageText (fun _ => Backend.FetchThrows)
    {| Backend.url := lit "https://example.org/doc"; Backend.title := None;
       Backend.text :=
         Some (JString (collectPageText (Some (lit "  Hello   world "))));
       Backend.count := None |}
  = collectPageText (Some (lit "  Hello   world "))
  /\ Backend.pageText (fun _ => Backend.FetchThrows)
       {| Backend.url := lit "https://example.org/doc";
          Backend.title := None;
          Backend.text := Some (JString (collectPageText None));
          Backend.count := None |}
     = Backend.fetchPageText Backend.FetchThrows.
Proof.
  split.
  - apply (collected_text_reaches_the_prompt (fun _ => Backend.FetchThrows)
             (Some (lit "  Hello   world "))).
    vm_compute. discriminate.
  - apply (collected_text_reaches_the_prompt (fun _ => Backend.FetchThrows)
             None (lit "https://example.org/doc") None None).
    reflexivity.
Defined.

Lemma stripHtml_of_plain_text_witness :
  Backend.stripHtml (lit " two   words ")
  = trim (replace_whitespace (lit " two   words ")).
Proof.
  apply stripHtml_of_plain_text. vm_compute. intros H.
  repeat (destruct H as [H | H]; [ discriminate | ]). exact H.
Defined.
